(** * 7-way trailer tester firmware: model and properties

    A shallow embedding of the decision logic of the firmware
    (firmware/code.py, firmware/diagnostics.py, firmware/relay_manager.py,
    firmware/test_modes.py) and the properties of the specification
    checked against it.

    Conventions.
    - Python [float] is IEEE binary64: Rocq's primitive [float].
    - Python [int] is [Z].
    - A [dict] whose iteration order matters (the readings of a snapshot,
      the CHANNELS table) is an association list in insertion order; the
      fault counters, only ever looked up by key, are a [gmap].
    - Formatted text ([str.format], f-strings) is kept as a template with
      its arguments, so no number formatting is modelled.
    - Clock readings of the button tracker are whole milliseconds. *)

From Stdlib Require Import ZArith List String Floats Uint63 Lia Permutation Sorted.
From stdpp Require Import gmap strings list.

Set Warnings "-inexact-float".
Local Open Scope string_scope.
Local Open Scope Z_scope.
Local Open Scope list_scope.

(** ** Python values and exceptions *)

(** The exceptions the modelled code can raise. *)
Inductive py_error : Type :=
| TypeError (msg : string)
| AttributeError (msg : string)
| KeyError (key : string)
| ValueError (msg : string)
| KeyboardInterrupt.

(** An argument of a format template. [FFloat p v] is [v] printed with
    [p] decimals ([{:.1f}], [{voltage:.2f}]). *)
Inductive fmt_arg : Type :=
| FStr (s : string)
| FInt (n : Z)
| FFloat (precision : nat) (v : float).

(** A formatted text: the template and what is interpolated into it. *)
Definition text : Type := (string * list fmt_arg)%type.

(** Python's true division [a / b] of two ints. Both operands are
    converted exactly as long as they are below 2^53, and the IEEE
    quotient is then the correctly rounded one Python returns. *)
Definition int_true_div (a b : Z) : float :=
  (of_uint63 (Uint63.of_Z a) / of_uint63 (Uint63.of_Z b))%float.

(** [d.get(key, default)] on an insertion-ordered dict. *)
Fixpoint dict_get {V : Type} (d : list (string * V)) (key : string) (default : V) : V :=
  match d with
  | [] => default
  | (k, v) :: rest => if String.eqb k key then v else dict_get rest key default
  end.

(** [d.values()]. *)
Definition dict_values {V : Type} (d : list (string * V)) : list V := map snd d.

(** ** firmware/diagnostics.py *)

Module Diagnostics.

(** class FaultPattern *)
Record FaultPattern : Type := mkFault {
  name : string;
  description : text;
  confidence : Z;
  fixes : list text
}.

(** The voltage snapshot handed to the engine: channel name -> volts. *)
Definition readings : Type := list (string * float).

(** DiagnosticsEngine thresholds. *)
Definition EXPECTED_VOLTAGE : float := 12.0%float.
Definition NORMAL_MIN : float := 11.0%float.
Definition WEAK_THRESHOLD : float := 9.0%float.
Definition ACTIVE_THRESHOLD : float := 3.0%float.

Record channel_info : Type := mkInfo {
  info_name : string;
  info_pin : Z;
  info_color : string
}.

(** DiagnosticsEngine._get_channel_info *)
Definition _get_channel_info (channel : string) : channel_info :=
  let channel_map :=
    [ ("brake", mkInfo "Brake" 2 "Blue");
      ("tail", mkInfo "Tail/Running" 3 "Green");
      ("left", mkInfo "Left Turn" 4 "Red");
      ("right", mkInfo "Right Turn" 5 "Brown");
      ("aux", mkInfo "Aux Power" 6 "Black");
      ("reverse", mkInfo "Reverse" 7 "Yellow") ] in
  dict_get channel_map channel (mkInfo channel 0 "Unknown").

(** DiagnosticsEngine._is_open_circuit *)
Definition _is_open_circuit (channel : string) (voltage : float) : bool :=
  (voltage <? 0.5)%float.

(** DiagnosticsEngine._is_voltage_drop:
    [ACTIVE_THRESHOLD < voltage < WEAK_THRESHOLD] *)
Definition _is_voltage_drop (voltage : float) : bool :=
  (ACTIVE_THRESHOLD <? voltage)%float && (voltage <? WEAK_THRESHOLD)%float.

(** DiagnosticsEngine._is_weak_signal:
    [WEAK_THRESHOLD <= voltage < NORMAL_MIN] *)
Definition _is_weak_signal (voltage : float) : bool :=
  (WEAK_THRESHOLD <=? voltage)%float && (voltage <? NORMAL_MIN)%float.

(** DiagnosticsEngine._diagnose_voltage_drop *)
Definition _diagnose_voltage_drop (channel : string) (voltage : float) : FaultPattern :=
  let channel_info := _get_channel_info channel in
  {| name := "VOLTAGE_DROP";
     description :=
       ("{} ({}) shows {:.1f}V - significant voltage drop",
        [FStr (info_name channel_info); FStr (info_color channel_info); FFloat 1 voltage]);
     confidence := 85;
     fixes :=
       [ ("Clean connector pins with electrical contact cleaner", []);
         ("Check for loose connections at pin {}", [FInt (info_pin channel_info)]);
         ("Inspect wire for damage or corrosion", []);
         ("Verify adequate wire gauge (16-18 AWG minimum)", []);
         ("Check ground connection (Pin 1, White wire)", []);
         ("Apply dielectric grease to prevent corrosion", []) ] |}.

(** DiagnosticsEngine._diagnose_weak_signal *)
Definition _diagnose_weak_signal (channel : string) (voltage : float) : FaultPattern :=
  let channel_info := _get_channel_info channel in
  {| name := "WEAK_SIGNAL";
     description :=
       ("{} ({}) reads {:.1f}V - below normal (11-12V expected)",
        [FStr (info_name channel_info); FStr (info_color channel_info); FFloat 1 voltage]);
     confidence := 70;
     fixes :=
       [ ("Check battery voltage (should be 12.6V resting)", []);
         ("Clean connector contacts", []);
         ("Verify ground connection quality", []);
         ("Check for high-resistance connections", []);
         ("Inspect wire run for excessive length", []) ] |}.

(** DiagnosticsEngine._detect_cross_wiring *)
Definition _detect_cross_wiring (r : readings) : option FaultPattern :=
  let left_voltage := dict_get r "left" 0%float in
  let right_voltage := dict_get r "right" 0%float in
  if (ACTIVE_THRESHOLD <? left_voltage)%float && (ACTIVE_THRESHOLD <? right_voltage)%float then
    if (abs (left_voltage - right_voltage) <? 1.0)%float then
      Some {| name := "POSSIBLE_CROSS_WIRE";
              description :=
                ("Left and Right turn signals both active - possible cross-wiring or hazards", []);
              confidence := 60;
              fixes :=
                [ ("Verify this is not hazard lights mode", []);
                  ("Check wire colors: Left=Red(4), Right=Brown(5)", []);
                  ("Inspect connector for crossed pins", []);
                  ("Verify trailer wiring matches RV 7-Way standard", []);
                  ("Check for short circuit between left/right wires", []) ] |}
    else None
  else None.

(** [sum(values)]: Python starts from the int 0 and adds left to right. *)
Definition py_sum (values : list float) : float :=
  fold_left (fun acc v => (acc + v)%float) values 0%float.

(** DiagnosticsEngine._detect_ground_fault *)
Definition _detect_ground_fault (r : readings) : option FaultPattern :=
  let active_channels :=
    List.filter (fun v => (ACTIVE_THRESHOLD <? v)%float) (dict_values r) in
  if 3 <=? Z.of_nat (length active_channels) then
    let avg_voltage :=
      (py_sum active_channels / of_uint63 (Uint63.of_Z (Z.of_nat (length active_channels))))%float in
    if (avg_voltage <? NORMAL_MIN)%float then
      Some {| name := "GROUND_FAULT";
              description :=
                ("All channels read low ({:.1f}V avg) - likely ground issue", [FFloat 1 avg_voltage]);
              confidence := 90;
              fixes :=
                [ ("Inspect ground wire (Pin 1, White) connection", []);
                  ("Clean ground connection at trailer frame", []);
                  ("Verify ground wire is securely attached", []);
                  ("Check for rust/corrosion at ground point", []);
                  ("Install additional ground strap if needed", []);
                  ("Verify ground wire gauge is adequate", []) ] |}
    else None
  else None.

(** [faults.sort(key=lambda f: f.confidence, reverse=True)].
    Python's sort is stable, also with [reverse=True]: the result is in
    descending key order and elements with equal keys keep their relative
    order. The built-in is modelled by a stable insertion sort: an
    element is placed before the first element with a strictly smaller
    key. *)
Fixpoint insert_by_confidence (f : FaultPattern) (sorted : list FaultPattern) : list FaultPattern :=
  match sorted with
  | [] => [f]
  | g :: rest =>
      if confidence f <? confidence g
      then g :: insert_by_confidence f rest
      else f :: g :: rest
  end.

Fixpoint sort_by_confidence_reverse (faults : list FaultPattern) : list FaultPattern :=
  match faults with
  | [] => []
  | f :: rest => insert_by_confidence f (sort_by_confidence_reverse rest)
  end.

(** The body of the per-channel loop of [analyze_readings]: one
    iteration, on the fault list built so far. *)
Definition check_channel (faults : list FaultPattern) (item : string * float) : list FaultPattern :=
  let '(channel, voltage) := item in
  if (ACTIVE_THRESHOLD <? voltage)%float then
    if _is_voltage_drop voltage then
      faults ++ [_diagnose_voltage_drop channel voltage]
    else if _is_weak_signal voltage then
      faults ++ [_diagnose_weak_signal channel voltage]
    else faults
  else faults.

(** [if fault: faults.append(fault)] *)
Definition append_if_found (faults : list FaultPattern) (found : option FaultPattern) : list FaultPattern :=
  match found with
  | Some fault => faults ++ [fault]
  | None => faults
  end.

(** The fault list of [analyze_readings] as encountered, before the
    final sort. *)
Definition encountered_faults (r : readings) : list FaultPattern :=
  let faults := fold_left check_channel r [] in
  let faults := append_if_found faults (_detect_cross_wiring r) in
  append_if_found faults (_detect_ground_fault r).

(** DiagnosticsEngine.analyze_readings (the [mode] argument is unused). *)
Definition analyze_readings (r : readings) : list FaultPattern :=
  sort_by_confidence_reverse (encountered_faults r).

(** One entry of [DiagnosticHistory.history]. *)
Record entry : Type := mkEntry {
  timestamp : float;
  entry_readings : readings;
  entry_faults : list FaultPattern
}.

(** class DiagnosticHistory *)
Record DiagnosticHistory : Type := mkHistory {
  history : list entry;
  max_history : Z;
  fault_counts : gmap string Z
}.

(** DiagnosticHistory.__init__ *)
Definition new_history (max_history : Z) : DiagnosticHistory :=
  {| history := []; max_history := max_history; fault_counts := ∅ |}.

Definition default_max_history : Z := 100.

(** One iteration of the counting loop of [add_reading]. *)
Definition count_fault (counts : gmap string Z) (fault : FaultPattern) : gmap string Z :=
  let counts :=
    match counts !! name fault with
    | None => <[name fault := 0]> counts
    | Some _ => counts
    end in
  <[name fault := default 0 (counts !! name fault) + 1]> counts.

(** [self.history.pop(0)] on a list that was just appended to. *)
Definition pop_first (h : list entry) : list entry := List.tl h.

(** DiagnosticHistory.add_reading *)
Definition add_reading (self : DiagnosticHistory)
    (ts : float) (r : readings) (faults : list FaultPattern) : DiagnosticHistory :=
  let history1 := history self ++ [mkEntry ts r faults] in
  let counts := fold_left count_fault faults (fault_counts self) in
  let history2 :=
    if Z.of_nat (length history1) >? max_history self
    then pop_first history1
    else history1 in
  {| history := history2; max_history := max_history self; fault_counts := counts |}.

(** DiagnosticHistory.detect_intermittent_fault *)
Definition detect_intermittent_fault (self : DiagnosticHistory)
    (fault_name : string) (threshold : float) : bool :=
  if Z.of_nat (length (history self)) <? 10 then false
  else
    let occurrences := default 0 (fault_counts self !! fault_name) in
    let percentage := int_true_div occurrences (Z.of_nat (length (history self))) in
    (0.1 <? percentage)%float && (percentage <? 0.9)%float.

Definition default_threshold : float := 0.3%float.

(** A sequence of [add_reading] calls, oldest first, on a history. *)
Definition add_all (self : DiagnosticHistory) (adds : list entry) : DiagnosticHistory :=
  fold_left (fun h e => add_reading h (timestamp e) (entry_readings e) (entry_faults e)) adds self.

(** The intermittency test as the specification words it: the fraction
    of stored entries that contain a finding of the kind, strictly
    between 0.1 and 0.9, once ten entries are stored. *)
Definition entry_has_kind (kind : string) (e : entry) : bool :=
  existsb (fun f => String.eqb (name f) kind) (entry_faults e).

Definition is_intermittent_spec (self : DiagnosticHistory) (kind : string) : bool :=
  if Z.of_nat (length (history self)) <? 10 then false
  else
    let hits := Z.of_nat (length (List.filter (entry_has_kind kind) (history self))) in
    let fraction := int_true_div hits (Z.of_nat (length (history self))) in
    (0.1 <? fraction)%float && (fraction <? 0.9)%float.

(** [l[-n:]] for a positive [n]: the last [n] elements, all of [l]
    when it is shorter. *)
Definition last_n {A : Type} (n : nat) (l : list A) : list A :=
  drop (length l - n) l.

(** [float(n)] of a small non-negative int. *)
Definition float_of_nat (n : nat) : float := of_uint63 (Uint63.of_Z (Z.of_nat n)).

(** DiagnosticHistory.get_trend. The default of [.get(channel, 0)] is
    the int 0, which adds and divides as the float 0.0 does. *)
Definition get_trend (self : DiagnosticHistory) (channel : string) : option string :=
  if Z.of_nat (length (history self)) <? 5 then None
  else
    let recent :=
      map (fun h => dict_get (entry_readings h) channel 0%float) (last_n 10 (history self)) in
    if Z.of_nat (length recent) <? 5 then None
    else
      let half := (length recent / 2)%nat in
      let first_half := (py_sum (take half recent) / float_of_nat half)%float in
      let second_half :=
        (py_sum (drop half recent) / float_of_nat (length recent - half))%float in
      let diff := (second_half - first_half)%float in
      if (abs diff <? 0.5)%float then Some "stable"
      else if (0 <? diff)%float then Some "improving"
      else Some "degrading".

End Diagnostics.

(** ** Observable effects

    The peripherals (logger, GPIO, ADC, display, NeoPixels, clock) are
    external collaborators: a call to one of them is recorded as an
    event, in program order. *)

(** The three handlers the button tracker calls. *)
Inductive handler : Type :=
| CycleMode        (* TrailerTester._cycle_mode *)
| TriggerTest      (* TrailerTester._trigger_test *)
| TriggerFullTest. (* TrailerTester._trigger_full_test *)

Inductive display_op : Type :=
| ShowMode (mode : Z)
| ShowMessage (message : string)
| ShowTestChannel (channel_name : string)
| ShowVoltageReadings (r : list (string * float))
| DisplayClear.

Inductive pixel_op : Type :=
| SetModeIndicator (mode : Z)
| SetChannelActive (led_index : Z)
| SetChannelIdle (led_index : Z)
| BlinkAll (color : Z * Z * Z) (count : Z) (on_time off_time : float)
| PixelsClear.

Inductive event : Type :=
| Log (logger : string) (level : Z) (message : text)
| GpioWrite (relay : nat) (value : bool)   (* self.relays[idx].value = value *)
| Sleep (seconds : float)                  (* time.sleep(seconds) returned *)
| AdcRead (board_idx channel : Z) (volts : float)
| Display (op : display_op)
| Pixels (op : pixel_op)
| Enter (h : handler).                     (* the handler was called *)

(** logger.LogLevel *)
Module LogLevel.
Definition DEBUG : Z := 10.
Definition INFO : Z := 20.
Definition WARNING : Z := 30.
Definition ERROR : Z := 40.
End LogLevel.

(** The relay outputs after the GPIO writes of a list of events, from
    the outputs [init] before it. *)
Definition gpio_step (outputs : list bool) (e : event) : list bool :=
  match e with
  | GpioWrite i v => <[i := v]> outputs
  | _ => outputs
  end.

Definition gpio_after (init : list bool) (tr : list event) : list bool :=
  fold_left gpio_step tr init.

(** Number of energized relays. *)
Definition energized (outputs : list bool) : nat :=
  length (List.filter (fun b : bool => b) outputs).

(** ** firmware/relay_manager.py *)

Module Relay.

(** class RelayManager: [relays] holds the [value] of each relay's GPIO
    pin, [states] the tracked states. [__init__] builds both with one
    element per entry of RELAY_PINS and nothing resizes them. *)
Record RelayManager : Type := mkRelays {
  relays : list bool;
  states : list bool
}.

Definition RELAY_PINS : list string := ["D6"; "D9"; "D10"; "D11"; "D12"; "D13"].
Definition CHANNEL_NAMES : list string := ["brake"; "tail"; "left"; "right"; "aux"; "reverse"].

(** RelayManager.__init__ *)
Definition new_relay_manager : RelayManager :=
  {| relays := map (fun _ => false) RELAY_PINS;
     states := replicate (length RELAY_PINS) false |}.

(** RelayManager.set_channel: the new manager and what it logged and
    wrote. The function returns [None] on both paths. *)
Definition set_channel (self : RelayManager) (channel_idx : Z) (state : bool)
    : RelayManager * list event :=
  if negb ((0 <=? channel_idx) && (channel_idx <? Z.of_nat (length (relays self)))) then
    (self, [Log "relay" LogLevel.ERROR ("Invalid relay index: {}", [FInt channel_idx])])
  else
    let i := Z.to_nat channel_idx in
    let channel_name := nth i CHANNEL_NAMES "" in
    let state_str := if state then "ON" else "OFF" in
    ({| relays := <[i := state]> (relays self);
        states := <[i := state]> (states self) |},
     [GpioWrite i state;
      Log "relay" LogLevel.DEBUG
        ("Relay {} ({}): {}", [FInt channel_idx; FStr channel_name; FStr state_str])]).

(** RelayManager.get_channel *)
Definition get_channel (self : RelayManager) (channel_idx : Z) : bool :=
  if negb ((0 <=? channel_idx) && (channel_idx <? Z.of_nat (length (relays self)))) then false
  else nth (Z.to_nat channel_idx) (states self) false.

(** RelayManager.all_off *)
Definition all_off (self : RelayManager) : RelayManager * list event :=
  let indices := seq 0 (length (relays self)) in
  (fold_left
     (fun rm idx => {| relays := <[idx := false]> (relays rm);
                       states := <[idx := false]> (states rm) |})
     indices self,
   Log "relay" LogLevel.INFO ("All relays OFF", []) :: map (fun idx => GpioWrite idx false) indices).

(** RelayManager.toggle_channel: the new manager, the value returned
    and the effects. [self.states[channel_idx]] is read at an index
    that is in the range of [relays]; [states] has the same length. *)
Definition toggle_channel (self : RelayManager) (channel_idx : Z)
    : RelayManager * bool * list event :=
  if negb ((0 <=? channel_idx) && (channel_idx <? Z.of_nat (length (relays self)))) then
    (self, false, [])
  else
    let new_state := negb (nth (Z.to_nat channel_idx) (states self) false) in
    let '(rm, events) := set_channel self channel_idx new_state in
    (rm, new_state, events).

(** RelayManager.all_on *)
Definition all_on (self : RelayManager) : RelayManager * list event :=
  let indices := seq 0 (length (relays self)) in
  (fold_left
     (fun rm idx => {| relays := <[idx := true]> (relays rm);
                       states := <[idx := true]> (states rm) |})
     indices self,
   Log "relay" LogLevel.WARNING ("All relays ON", []) :: map (fun idx => GpioWrite idx true) indices).

(** One iteration of the loop of [set_pattern], on the manager and the
    effects so far. *)
Definition set_pattern_step (acc : RelayManager * list event) (item : nat * bool)
    : RelayManager * list event :=
  let '(rm, events) := acc in
  let '(idx, state) := item in
  if (idx <? length (relays rm))%nat then
    ({| relays := <[idx := state]> (relays rm); states := <[idx := state]> (states rm) |},
     events ++ [GpioWrite idx state])
  else (rm, events).

(** [enumerate(pattern)] *)
Definition enumerate {A : Type} (l : list A) : list (nat * A) :=
  combine (seq 0 (length l)) l.

(** RelayManager.set_pattern. The logged pattern is kept as the reprs
    of its elements. *)
Definition set_pattern (self : RelayManager) (pattern : list bool)
    : RelayManager * list event :=
  let '(rm, events) := fold_left set_pattern_step (enumerate pattern) (self, []) in
  (rm,
   events ++
   [Log "relay" LogLevel.DEBUG
      ("Relay pattern set: {}",
       map (fun b : bool => FStr (if b then "True" else "False")) pattern)]).

(** The loop of [get_active_channels] from index [idx] on; [None] is
    the IndexError of [CHANNEL_NAMES[idx]]. *)
Fixpoint active_from (idx : nat) (sts : list bool) : option (list string) :=
  match sts with
  | [] => Some []
  | state :: rest =>
      if state then
        match nth_error CHANNEL_NAMES idx, active_from (S idx) rest with
        | Some channel_name, Some active => Some (channel_name :: active)
        | _, _ => None
        end
      else active_from (S idx) rest
  end.

(** RelayManager.get_active_channels *)
Definition get_active_channels (self : RelayManager) : option (list string) :=
  active_from 0 (states self).

End Relay.

(** ** firmware/test_modes.py *)

(** class TestMode. The class is a plain class holding three int
    constants ([const(0)] is the int 0), with two class methods. *)
Module TestMode.
Definition VEHICLE_TESTER : Z := 0.
Definition TRAILER_TESTER : Z := 1.
Definition PASS_THROUGH : Z := 2.

(** TestMode.name(mode) *)
Definition name (mode : Z) : string :=
  if mode =? VEHICLE_TESTER then "VEHICLE_TESTER"
  else if mode =? TRAILER_TESTER then "TRAILER_TESTER"
  else if mode =? PASS_THROUGH then "PASS_THROUGH"
  else "UNKNOWN".

(** TestMode.all_modes() *)
Definition all_modes : list Z := [VEHICLE_TESTER; TRAILER_TESTER; PASS_THROUGH].
End TestMode.

(** ** firmware/code.py *)

Module Firmware.

Inductive outcome (A : Type) : Type :=
| Ok (a : A)
| Raise (e : py_error).
Arguments Ok {A} a.
Arguments Raise {A} e.

(** [list(TestMode)] as [_cycle_mode] writes it. A class object is
    iterable only when its metaclass defines [__iter__] (as Enum's
    does); TestMode is a plain class, so the built-in raises. *)
Definition list_of_TestMode : outcome (list Z) :=
  Raise (TypeError "'type' object is not iterable").

(** [mode.name] on a mode value: the modes are ints, which have no such
    attribute (the name is [TestMode.name(mode)]). *)
Definition mode_dot_name (mode : Z) : outcome string :=
  Raise (AttributeError "'int' object has no attribute 'name'").

(** [modes.index(x)] *)
Fixpoint list_index_from (modes : list Z) (x : Z) (i : Z) : outcome Z :=
  match modes with
  | [] => Raise (ValueError "value is not in list")
  | m :: rest => if m =? x then Ok i else list_index_from rest x (i + 1)
  end.

Definition list_index (modes : list Z) (x : Z) : outcome Z := list_index_from modes x 0.

(** One entry of TrailerTester.CHANNELS. *)
Record channel : Type := mkChannel {
  pin : Z;
  color : string;
  relay_idx : Z;
  adc_board : Z;
  adc_chan : Z
}.

Definition CHANNELS : list (string * channel) :=
  [ ("brake", mkChannel 2 "blue" 0 0 0);
    ("tail", mkChannel 3 "green" 1 0 1);
    ("left", mkChannel 4 "red" 2 0 2);
    ("right", mkChannel 5 "brown" 3 0 3);
    ("aux", mkChannel 6 "black" 4 1 0);
    ("reverse", mkChannel 7 "yellow" 5 1 1) ].

(** [self.CHANNELS[channel_name]] *)
Fixpoint dict_item {V : Type} (d : list (string * V)) (key : string) : outcome V :=
  match d with
  | [] => Raise (KeyError key)
  | (k, v) :: rest => if String.eqb k key then Ok v else dict_item rest key
  end.

(** [readings[key] = value] *)
Fixpoint dict_set {V : Type} (d : list (string * V)) (key : string) (value : V) : list (string * V) :=
  match d with
  | [] => [(key, value)]
  | (k, v) :: rest =>
      if String.eqb k key then (k, value) :: rest else (k, v) :: dict_set rest key value
  end.

Definition DEBOUNCE_MS : Z := 50.
Definition LONG_PRESS_MS : Z := 2000.

(** The attributes of the application object (class TrailerTester of
    code.py). *)
Record TrailerTester : Type := mkApp {
  current_mode : Z;
  running : bool;
  relays : Relay.RelayManager;
  mode_button_last : bool;
  _mode_press_time : Z;
  test_button_last : bool;
  _test_press_start : Z;
  _long_press_triggered : bool
}.

(** The application together with its surroundings: what the ADC
    returns for a (board, channel), and the pending interruption.
    [interrupt_in = Some n] means a KeyboardInterrupt is delivered in
    the sleep after [n] more completed sleeps of the controller; [None]
    means none is pending. *)
Record machine : Type := mkMachine {
  app : TrailerTester;
  adc : Z -> Z -> float;
  interrupt_in : option nat
}.

(** What running a piece of the controller gives: how it ended, the
    machine it left, and the effects it had, in program order. *)
Record run (A : Type) : Type := mkRun {
  result : outcome A;
  final : machine;
  effects : list event
}.
Arguments mkRun {A} result final effects.
Arguments result {A} r.
Arguments final {A} r.
Arguments effects {A} r.

(** Computations of the controller: state, effects and exceptions. *)
Definition M (A : Type) : Type := machine -> run A.

Definition ret {A : Type} (a : A) : M A := fun m => mkRun (Ok a) m [].

Definition bind {A B : Type} (c : M A) (k : A -> M B) : M B :=
  fun m =>
    let r := c m in
    match result r with
    | Ok a =>
        let r' := k a (final r) in
        mkRun (result r') (final r') (effects r ++ effects r')
    | Raise e => mkRun (Raise e) (final r) (effects r)
    end.

Notation "'do' x <- c ; k" := (bind c (fun x => k))
  (at level 10, x name, c at level 100, k at level 200).
Notation "c ;; k" := (bind c (fun _ => k))
  (at level 100, k at level 200, right associativity).

Definition lift {A : Type} (r : outcome A) : M A := fun m => mkRun r m [].

Definition get_app : M TrailerTester := fun m => mkRun (Ok (app m)) m [].

Definition update_app (f : TrailerTester -> TrailerTester) : M unit :=
  fun m => mkRun (Ok tt) (mkMachine (f (app m)) (adc m) (interrupt_in m)) [].

Definition emit (events : list event) : M unit :=
  fun m => mkRun (Ok tt) m events.

Definition log (logger : string) (level : Z) (message : text) : M unit :=
  emit [Log logger level message].

Definition display (op : display_op) : M unit := emit [Display op].
Definition pixels (op : pixel_op) : M unit := emit [Pixels op].
Definition enter (h : handler) : M unit := emit [Enter h].

(** [time.sleep(seconds)]: returns, or is cut short by the pending
    interruption. *)
Definition time_sleep (seconds : float) : M unit :=
  fun m =>
    match interrupt_in m with
    | Some O => mkRun (Raise KeyboardInterrupt) (mkMachine (app m) (adc m) None) []
    | Some (S n) => mkRun (Ok tt) (mkMachine (app m) (adc m) (Some n)) [Sleep seconds]
    | None => mkRun (Ok tt) m [Sleep seconds]
    end.

(** [self.adc.read_voltage(board_idx=..., channel=...)] *)
Definition adc_read_voltage (board_idx chan : Z) : M float :=
  fun m =>
    let v := adc m board_idx chan in
    mkRun (Ok v) m [AdcRead board_idx chan v].

(** Attribute assignments. *)
Definition with_current_mode (v : Z) (a : TrailerTester) : TrailerTester :=
  mkApp v (running a) (relays a) (mode_button_last a) (_mode_press_time a)
        (test_button_last a) (_test_press_start a) (_long_press_triggered a).
Definition with_relays (v : Relay.RelayManager) (a : TrailerTester) : TrailerTester :=
  mkApp (current_mode a) (running a) v (mode_button_last a) (_mode_press_time a)
        (test_button_last a) (_test_press_start a) (_long_press_triggered a).
Definition with_mode_button_last (v : bool) (a : TrailerTester) : TrailerTester :=
  mkApp (current_mode a) (running a) (relays a) v (_mode_press_time a)
        (test_button_last a) (_test_press_start a) (_long_press_triggered a).
Definition with_mode_press_time (v : Z) (a : TrailerTester) : TrailerTester :=
  mkApp (current_mode a) (running a) (relays a) (mode_button_last a) v
        (test_button_last a) (_test_press_start a) (_long_press_triggered a).
Definition with_test_button_last (v : bool) (a : TrailerTester) : TrailerTester :=
  mkApp (current_mode a) (running a) (relays a) (mode_button_last a) (_mode_press_time a)
        v (_test_press_start a) (_long_press_triggered a).
Definition with_test_press_start (v : Z) (a : TrailerTester) : TrailerTester :=
  mkApp (current_mode a) (running a) (relays a) (mode_button_last a) (_mode_press_time a)
        (test_button_last a) v (_long_press_triggered a).
Definition with_long_press_triggered (v : bool) (a : TrailerTester) : TrailerTester :=
  mkApp (current_mode a) (running a) (relays a) (mode_button_last a) (_mode_press_time a)
        (test_button_last a) (_test_press_start a) v.

(** [self.relays.set_channel(idx, state)] *)
Definition relays_set_channel (channel_idx : Z) (state : bool) : M unit :=
  do a <- get_app;
  let '(rm, events) := Relay.set_channel (relays a) channel_idx state in
  update_app (with_relays rm) ;;
  emit events.

(** [self.relays.all_off()] *)
Definition relays_all_off : M unit :=
  do a <- get_app;
  let '(rm, events) := Relay.all_off (relays a) in
  update_app (with_relays rm) ;;
  emit events.

(** NeoPixelManager.set_mode_indicator: sets LED 0, then logs
    [mode.name]. *)
Definition neopixels_set_mode_indicator (mode : Z) : M unit :=
  pixels (SetModeIndicator mode) ;;
  do mode_name <- lift (mode_dot_name mode);
  log "neopixel" LogLevel.DEBUG ("Mode indicator set to {}", [FStr mode_name]).

(** [for x in items: body(x)] *)
Fixpoint for_each {A : Type} (body : A -> M unit) (items : list A) : M unit :=
  match items with
  | [] => ret tt
  | x :: rest => body x ;; for_each body rest
  end.

(** TrailerTester._cycle_mode *)
Definition _cycle_mode : M unit :=
  enter CycleMode ;;
  do modes <- lift list_of_TestMode;
  do a <- get_app;
  do current_idx <- lift (list_index modes (current_mode a));
  let next_idx := (current_idx + 1) mod Z.of_nat (length modes) in
  update_app (with_current_mode (nth (Z.to_nat next_idx) modes 0)) ;;
  do a <- get_app;
  do mode_name <- lift (mode_dot_name (current_mode a));
  log "app" LogLevel.INFO ("Mode changed to: {}", [FStr mode_name]) ;;
  display (ShowMode (current_mode a)) ;;
  neopixels_set_mode_indicator (current_mode a) ;;
  (* Turn off all relays when changing modes for safety *)
  relays_all_off.

(** The loop of [_read_all_channels], on the readings collected so far. *)
Fixpoint read_channels (items : list (string * channel)) (detailed : bool)
    (r : list (string * float)) : M (list (string * float)) :=
  match items with
  | [] => ret r
  | (channel_name, channel_info) :: rest =>
      do voltage <- adc_read_voltage (adc_board channel_info) (adc_chan channel_info);
      let r := dict_set r channel_name voltage in
      let is_active := (3.0 <? voltage)%float in
      let pixel_idx := relay_idx channel_info + 1 in
      (if is_active then pixels (SetChannelActive pixel_idx)
       else pixels (SetChannelIdle pixel_idx)) ;;
      (if detailed
       then log "app" LogLevel.DEBUG ("{}: {:.2f}V", [FStr channel_name; FFloat 2 voltage])
       else ret tt) ;;
      read_channels rest detailed r
  end.

(** TrailerTester._read_all_channels *)
Definition _read_all_channels (detailed : bool) : M (list (string * float)) :=
  do r <- read_channels CHANNELS detailed [];
  display (ShowVoltageReadings r) ;;
  ret r.

Definition test_sequence : list (string * string * float) :=
  [ ("tail", "Tail Lights", 2.0%float);
    ("left", "Left Turn", 1.5%float);
    ("right", "Right Turn", 1.5%float);
    ("brake", "Brakes", 2.0%float);
    ("reverse", "Reverse", 1.5%float);
    ("aux", "Aux Power", 1.0%float) ].

(** One iteration of the loop of [_run_trailer_test_sequence]. *)
Definition sequence_step (step : string * string * float) : M unit :=
  let '(channel_name, display_name, duration) := step in
  do channel <- lift (dict_item CHANNELS channel_name);
  log "app" LogLevel.DEBUG ("Testing {}...", [FStr channel_name]) ;;
  display (ShowTestChannel display_name) ;;
  pixels (SetChannelActive (relay_idx channel + 1)) ;;
  relays_set_channel (relay_idx channel) true ;;
  time_sleep duration ;;
  relays_set_channel (relay_idx channel) false ;;
  pixels (SetChannelIdle (relay_idx channel + 1)) ;;
  time_sleep 0.3%float.

(** TrailerTester._run_trailer_test_sequence *)
Definition _run_trailer_test_sequence : M unit :=
  log "app" LogLevel.INFO ("Starting trailer test sequence...", []) ;;
  display (ShowMessage "Testing trailer...") ;;
  for_each sequence_step test_sequence ;;
  display (ShowMessage "Test complete!") ;;
  log "app" LogLevel.INFO ("Trailer test sequence complete", []).

(** The mode dispatch of [_trigger_test] (the if/elif after its log
    line). *)
Definition _trigger_test_dispatch : M unit :=
  do a <- get_app;
  if current_mode a =? TestMode.TRAILER_TESTER then
    _run_trailer_test_sequence
  else if current_mode a =? TestMode.VEHICLE_TESTER then
    (* In vehicle mode, test button forces a refresh/detailed read *)
    _read_all_channels true ;; ret tt
  else ret tt.

(** TrailerTester._trigger_test *)
Definition _trigger_test : M unit :=
  enter TriggerTest ;;
  do a <- get_app;
  do mode_name <- lift (mode_dot_name (current_mode a));
  log "app" LogLevel.INFO ("Test triggered in mode: {}", [FStr mode_name]) ;;
  _trigger_test_dispatch.

(** TrailerTester._trigger_full_test *)
Definition _trigger_full_test : M unit :=
  enter TriggerFullTest ;;
  log "app" LogLevel.INFO ("Full system test triggered (long press detected)", []) ;;
  pixels (BlinkAll (0, 255, 255) 3 0.1%float 0.1%float) ;;
  display (ShowMessage "FULL TEST") ;;
  time_sleep 1.0%float ;;
  _run_trailer_test_sequence ;;
  do a <- get_app;
  (if current_mode a =? TestMode.VEHICLE_TESTER then
     time_sleep 0.5%float ;;
     display (ShowMessage "Reading inputs...") ;;
     time_sleep 1.0%float ;;
     _read_all_channels true ;; ret tt
   else ret tt) ;;
  pixels (BlinkAll (0, 255, 0) 2 0.15%float 0.15%float) ;;
  log "app" LogLevel.INFO ("Full system test complete", []).

(** TrailerTester.shutdown *)
Definition shutdown : M unit :=
  log "app" LogLevel.INFO ("Shutting down...", []) ;;
  relays_all_off ;;
  pixels PixelsClear ;;
  display (ShowMessage "Goodbye!") ;;
  time_sleep 0.5%float ;;
  display DisplayClear.

(** What one call of [check_buttons] reads from the hardware: the
    monotonic clock in milliseconds and the two button levels (pull-up
    wiring: [false] is pressed). *)
Record sample : Type := mkSample {
  clock : Z;
  mode_level : bool;
  test_level : bool
}.

(** TrailerTester.check_buttons *)
Definition check_buttons (x : sample) : M unit :=
  let current_time := clock x in
  (* Mode button - simple press with debounce *)
  let mode_current := mode_level x in
  do a <- get_app;
  (if negb mode_current && mode_button_last a then
     if current_time - _mode_press_time a >? DEBOUNCE_MS then
       _cycle_mode ;;
       pixels (BlinkAll (255, 255, 255) 1 0.05%float 0.0%float) ;;
       update_app (with_mode_press_time current_time)
     else ret tt
   else ret tt) ;;
  update_app (with_mode_button_last mode_current) ;;
  (* Test button - detect press start for long-press timing *)
  let test_current := test_level x in
  do a <- get_app;
  (if negb test_current && test_button_last a then
     update_app (with_test_press_start current_time) ;;
     update_app (with_long_press_triggered false)
   else if negb test_current && negb (test_button_last a) then
     let hold_time := current_time - _test_press_start a in
     if (hold_time >? LONG_PRESS_MS) && negb (_long_press_triggered a) then
       _trigger_full_test ;;
       update_app (with_long_press_triggered true)
     else ret tt
   else if test_current && negb (test_button_last a) then
     let hold_time := current_time - _test_press_start a in
     if (hold_time <? LONG_PRESS_MS) && negb (_long_press_triggered a) then
       _trigger_test
     else ret tt
   else ret tt) ;;
  update_app (with_test_button_last test_current).

(** Successive polls of the buttons, as the main loop issues them; an
    exception ends the polling. *)
Definition poll (samples : list sample) : M unit := for_each check_buttons samples.

(** TrailerTester.__init__ and _init_buttons: the attribute values
    after construction. *)
Definition new_app : TrailerTester :=
  {| current_mode := TestMode.VEHICLE_TESTER;
     running := true;
     relays := Relay.new_relay_manager;
     mode_button_last := true;
     _mode_press_time := 0;
     test_button_last := true;
     _test_press_start := 0;
     _long_press_triggered := false |}.

Definition boot (adc : Z -> Z -> float) (interrupt_in : option nat) : machine :=
  mkMachine new_app adc interrupt_in.

End Firmware.


(** The rest of test_modes.py. *)
Module TestModes.

(** class TestSequence: a step is a channel name, or [None] for all
    off, and a duration in seconds. *)
Definition FULL_TEST : list (option string * float) :=
  [ (Some "tail", 2.0%float); (Some "left", 1.5%float); (Some "right", 1.5%float);
    (Some "brake", 2.0%float); (Some "reverse", 1.5%float); (Some "aux", 1.0%float) ].

Definition QUICK_TEST : list (option string * float) :=
  [ (Some "tail", 0.5%float); (Some "left", 0.5%float); (Some "right", 0.5%float);
    (Some "brake", 0.5%float); (Some "reverse", 0.5%float); (Some "aux", 0.5%float) ].

Definition TURN_SIGNAL_TEST : list (option string * float) :=
  [ (Some "left", 0.5%float); (None, 0.5%float);
    (Some "left", 0.5%float); (None, 0.5%float);
    (Some "left", 0.5%float); (None, 0.5%float);
    (Some "right", 0.5%float); (None, 0.5%float);
    (Some "right", 0.5%float); (None, 0.5%float);
    (Some "right", 0.5%float) ].

Definition HAZARD_TEST : list (option string * float) :=
  [ (Some "left", 0.5%float); (Some "right", 0.5%float); (None, 0.5%float);
    (Some "left", 0.5%float); (Some "right", 0.5%float); (None, 0.5%float);
    (Some "left", 0.5%float); (Some "right", 0.5%float); (None, 0.5%float) ].

(** TrailerTester.get_test_sequence (test_modes.py) *)
Definition get_test_sequence (sequence_name : string) : list (option string * float) :=
  let sequences :=
    [ ("full", FULL_TEST); ("quick", QUICK_TEST);
      ("turn", TURN_SIGNAL_TEST); ("hazard", HAZARD_TEST) ] in
  dict_get sequences sequence_name FULL_TEST.

(** VehicleTester thresholds. *)
Definition THRESHOLD_LOW : float := 3.0%float.
Definition THRESHOLD_HIGH : float := 10.0%float.
Definition THRESHOLD_FAULT : float := 16.0%float.

(** VehicleTester.interpret_voltage: (status, is_active, is_fault). *)
Definition interpret_voltage (voltage : float) : string * bool * bool :=
  if (voltage <? 0.5)%float then ("OFF", false, false)
  else if (voltage <? THRESHOLD_LOW)%float then ("LOW", false, false)
  else if (voltage <? THRESHOLD_HIGH)%float then ("WEAK", true, false)
  else if (voltage <? THRESHOLD_FAULT)%float then ("OK", true, false)
  else ("HIGH!", true, true).

(** VehicleTester.analyze_readings *)
Definition analyze_readings (r : list (string * float)) : list (string * (string * bool * bool)) :=
  fold_left
    (fun analysis item => Firmware.dict_set analysis (fst item) (interpret_voltage (snd item)))
    r [].

End TestModes.

(** ** Observations and scenarios *)

Import Diagnostics Firmware.

(** Descending order of confidence. *)
Definition descending (f g : FaultPattern) : Prop := confidence g <= confidence f.

Definition same_confidence (c : Z) (f : FaultPattern) : bool := confidence f =? c.

(** A history entry as the application would record it: the snapshot
    with the findings [analyze_readings] returns for it. *)
Definition snapshot_entry (ts : float) (r : readings) : entry :=
  mkEntry ts r (analyze_readings r).

Definition two_drops : readings := [("brake", 7.0%float); ("tail", 7.0%float)].
Definition one_drop : readings := [("brake", 7.0%float)].
Definition all_clear : readings := [("brake", 12.0%float); ("tail", 12.0%float)].

(** Ten samples, the first with a voltage drop on two channels. *)
Definition ten_samples_one_faulty : list entry :=
  snapshot_entry 0%float two_drops :: replicate 9 (snapshot_entry 1%float all_clear).

(** Five faulty samples followed by ten clean ones. *)
Definition five_faulty_then_ten_clean : list entry :=
  replicate 5 (snapshot_entry 0%float one_drop) ++ replicate 10 (snapshot_entry 1%float all_clear).

(** The handlers entered, in order. *)
Definition entered (tr : list event) : list handler :=
  flat_map (fun e => match e with Enter h => [h] | _ => [] end) tr.

(** The ADC inputs read, in order. *)
Definition adc_reads (tr : list event) : list (Z * Z) :=
  flat_map (fun e => match e with AdcRead b c _ => [(b, c)] | _ => [] end) tr.

(** The readings handed to the display, in order. *)
Definition shown_readings (tr : list event) : list (list (string * float)) :=
  flat_map (fun e => match e with Display (ShowVoltageReadings r) => [r] | _ => [] end) tr.

(** The relay outputs at every instant of a list of events: before it
    and after each of its events. *)
Fixpoint gpio_history (outputs : list bool) (tr : list event) : list (list bool) :=
  match tr with
  | [] => [outputs]
  | e :: rest => outputs :: gpio_history (gpio_step outputs e) rest
  end.

Definition at_most_one_energized (outputs : list bool) : bool :=
  (energized outputs <=? 1)%nat.

(** An ADC that reads 12 V on every input. *)
Definition adc_12v : Z -> Z -> float := fun _ _ => 12.0%float.

(** A freshly booted machine put in a given mode. *)
Definition machine_in (mode : Z) : machine :=
  mkMachine (with_current_mode mode new_app) adc_12v None.

(** Samples of the action button with the mode button released. *)
Definition held_sample (t : Z) : sample := mkSample t true false.
Definition released_sample (t : Z) : sample := mkSample t true true.

(** The polls of one hold of the action button: the poll that sees the
    press at [t0], the polls that see it held, the poll that sees the
    release at [t1], and polls after it. *)
Definition hold_samples (t0 : Z) (held : list Z) (t1 : Z) (idle : list Z) : list sample :=
  held_sample t0 :: map held_sample held ++ released_sample t1 :: map released_sample idle.

(** The clock readings [first, first + step, ...], [n] of them. *)
Fixpoint every (step : Z) (first : Z) (n : nat) : list Z :=
  match n with
  | O => []
  | S n' => first :: every step (first + step) n'
  end.

(** How a computation ends from a machine: it returns [a] or raises
    [e], leaving the machine [m'] after the effects [tr]. *)
Definition returns {A} (c : M A) (m : machine) (a : A) (m' : machine) (tr : list event) : Prop :=
  c m = mkRun (Ok a) m' tr.
Definition raises {A} (c : M A) (m : machine) (e : py_error) (m' : machine) (tr : list event) : Prop :=
  c m = mkRun (Raise e) m' tr.


(** A computation that, with no interruption pending, returns, leaves
    everything but the relays as it was, and enters the handlers [hs]. *)
Definition steady {A : Type} (hs : list handler) (c : M A) : Prop :=
  forall a f, exists x rm tr,
    c (mkMachine a f None)
    = mkRun (Ok x) (mkMachine (with_relays rm a) f None) tr
    /\ entered tr = hs.

(** Whether a poll at [t] sees a hold that started at [t0] past the
    long-press threshold. *)
Definition past_threshold (t0 t : Z) : bool := t - t0 >? LONG_PRESS_MS.

(** ** Further observations *)

(** A finding named [k]. *)
Definition named (k : string) (f : FaultPattern) : bool := String.eqb (name f) k.

(** [v > ACTIVE_THRESHOLD], the test of the cross-wiring and ground
    detectors. *)
Definition is_active (v : float) : bool := (ACTIVE_THRESHOLD <? v)%float.

(** A relay manager as [__init__] builds it for the six RELAY_PINS: no
    method changes the length of either list. *)
Definition consistent (rm : Relay.RelayManager) : Prop :=
  length (Relay.relays rm) = 6%nat /\ length (Relay.states rm) = 6%nat.

(** The manager after [toggle_channel], and the value it returns. *)
Definition toggled (rm : Relay.RelayManager) (idx : Z) : Relay.RelayManager :=
  fst (fst (Relay.toggle_channel rm idx)).

Definition toggle_result (rm : Relay.RelayManager) (idx : Z) : bool :=
  snd (fst (Relay.toggle_channel rm idx)).

(** A step of a test sequence names a channel of CHANNELS, or none. *)
Definition known_channel (step : option string * float) : Prop :=
  match fst step with
  | Some channel_name => In channel_name (map fst CHANNELS)
  | None => True
  end.

(** The NeoPixel calls, in order. *)
Definition pixel_ops (tr : list event) : list pixel_op :=
  flat_map (fun e => match e with Pixels op => [op] | _ => [] end) tr.

(** The writes to the relay pins, in order. *)
Definition gpio_writes (tr : list event) : list (nat * bool) :=
  flat_map (fun e => match e with GpioWrite i v => [(i, v)] | _ => [] end) tr.

(** The NeoPixel call [_read_all_channels] makes for a channel that
    reads [voltage]. *)
Definition channel_led (item : string * channel) (voltage : float) : pixel_op :=
  if (3.0 <? voltage)%float
  then SetChannelActive (relay_idx (snd item) + 1)
  else SetChannelIdle (relay_idx (snd item) + 1).

(** What an uninterrupted test sequence logs, shows and writes. *)
Definition sequence_effects : list event :=
  effects (_run_trailer_test_sequence (boot adc_12v None)).

(** The tester after an interrupted step: relay 1 (tail) is energized. *)
Definition tail_left_on : machine :=
  mkMachine (with_relays (fst (Relay.set_channel Relay.new_relay_manager 1 true)) new_app)
            adc_12v None.

(** Ten clean samples. *)
Definition ten_clean : list entry := replicate 10 (snapshot_entry 1%float all_clear).

(** A snapshot with the left turn signal on and a sagging brake line. *)
Definition left_on_brake_sagging : readings := [("left", 12.0%float); ("brake", 7.0%float)].

(** * Properties *)

(** ** Comparisons of binary64 values *)

(** [x <= y] excludes [y < x], NaN and infinities included. *)
Lemma SFleb_not_SFltb (x y : spec_float) : SFleb x y = true -> SFltb y x = false.
Proof.
  unfold SFleb, SFltb.
  destruct x as [sx | sx | | sx mx ex], y as [sy | sy | | sy my ey];
    cbn [SFcompare]; try reflexivity; try discriminate;
    try (destruct sx; try destruct sy; first [reflexivity | discriminate]).
  assert (Hm : Pos.compare_cont Eq my mx = CompOpp (Pos.compare_cont Eq mx my))
    by (symmetry; apply (Pos.compare_cont_antisym mx my Eq)).
  rewrite (Z.compare_antisym ex ey).
  destruct sx, sy; try reflexivity; try discriminate;
    destruct (ex ?= ey); cbn [CompOpp]; try reflexivity; try discriminate;
    rewrite Hm; destruct (Pos.compare_cont Eq mx my); cbn [CompOpp];
    first [reflexivity | discriminate].
Qed.

(** Among positive finite floats a smaller exponent is a smaller number:
    what compares above the larger also compares above the smaller. *)
Lemma SFleb_SFltb_lower (m0 m1 : positive) (e0 e1 : Z) (x : spec_float) :
  e0 < e1 ->
  SFleb (S754_finite false m1 e1) x = true -> SFltb (S754_finite false m0 e0) x = true.
Proof.
  intros Hlt. unfold SFleb, SFltb.
  destruct x as [sx | sx | | sx mx ex]; cbn [SFcompare]; try discriminate.
  - destruct sx; first [reflexivity | discriminate].
  - destruct sx; try discriminate.
    destruct (e1 ?= ex) eqn:He; try discriminate; intros _.
    + apply Z.compare_eq in He. subst ex.
      apply Z.compare_lt_iff in Hlt. rewrite Hlt. reflexivity.
    + rewrite Z.compare_lt_iff in He.
      assert (H : (e0 ?= ex) = Lt) by (apply Z.compare_lt_iff; lia).
      rewrite H. reflexivity.
Qed.

Lemma not_above_floor (v : float) :
  (v <=? ACTIVE_THRESHOLD)%float = true -> (ACTIVE_THRESHOLD <? v)%float = false.
Proof.
  rewrite FloatAxioms.leb_spec, FloatAxioms.ltb_spec. apply SFleb_not_SFltb.
Qed.

Lemma Prim2SF_ACTIVE : Prim2SF ACTIVE_THRESHOLD = S754_finite false 6755399441055744 (-51).
Proof. vm_compute. reflexivity. Qed.
Lemma Prim2SF_WEAK : Prim2SF WEAK_THRESHOLD = S754_finite false 5066549580791808 (-49).
Proof. vm_compute. reflexivity. Qed.

Lemma weak_is_active (v : float) :
  (WEAK_THRESHOLD <=? v)%float = true -> (ACTIVE_THRESHOLD <? v)%float = true.
Proof.
  rewrite FloatAxioms.leb_spec, FloatAxioms.ltb_spec, Prim2SF_ACTIVE, Prim2SF_WEAK.
  apply SFleb_SFltb_lower. lia.
Qed.

(** ** The final sort of the analysis *)

Section SortByConfidence.

Lemma insert_by_confidence_perm f l :
  Permutation (insert_by_confidence f l) (f :: l).
Proof.
  induction l as [| g rest IH]; cbn [insert_by_confidence].
  - apply Permutation_refl.
  - destruct (confidence f <? confidence g).
    + apply Permutation_trans with (g :: f :: rest).
      * apply perm_skip, IH.
      * apply perm_swap.
    + apply Permutation_refl.
Qed.

Lemma sort_by_confidence_perm l :
  Permutation (sort_by_confidence_reverse l) l.
Proof.
  induction l as [| f rest IH]; cbn [sort_by_confidence_reverse].
  - apply perm_nil.
  - eapply Permutation_trans; [apply insert_by_confidence_perm |].
    apply perm_skip, IH.
Qed.

Lemma insert_by_confidence_sorted f l :
  StronglySorted descending l -> StronglySorted descending (insert_by_confidence f l).
Proof.
  induction 1 as [| g rest Hrest IH Hg]; cbn [insert_by_confidence].
  - repeat constructor.
  - destruct (confidence f <? confidence g) eqn:Hcmp.
    + constructor; [exact IH |].
      eapply Permutation_Forall; [symmetry; apply insert_by_confidence_perm |].
      constructor; [unfold descending; lia | exact Hg].
    + constructor; [constructor; assumption |].
      constructor; [unfold descending; lia |].
      eapply Forall_impl; [exact Hg |].
      unfold descending. intros h Hh. lia.
Qed.

Lemma sort_by_confidence_sorted l :
  StronglySorted descending (sort_by_confidence_reverse l).
Proof.
  induction l as [| f rest IH]; cbn [sort_by_confidence_reverse].
  - constructor.
  - apply insert_by_confidence_sorted, IH.
Qed.

(** Insertion never moves an element past one of the same confidence. *)
Lemma insert_by_confidence_stable c f l :
  List.filter (same_confidence c) (insert_by_confidence f l)
  = List.filter (same_confidence c) (f :: l).
Proof.
  induction l as [| g rest IH]; cbn [insert_by_confidence]; [reflexivity |].
  destruct (confidence f <? confidence g) eqn:Hcmp; [| reflexivity].
  cbn [List.filter] in *. rewrite IH. unfold same_confidence.
  destruct (confidence g =? c) eqn:Hg; [| reflexivity].
  destruct (confidence f =? c) eqn:Hf; [lia | reflexivity].
Qed.

Lemma sort_by_confidence_stable c l :
  List.filter (same_confidence c) (sort_by_confidence_reverse l)
  = List.filter (same_confidence c) l.
Proof.
  induction l as [| f rest IH]; cbn [sort_by_confidence_reverse]; [reflexivity |].
  rewrite insert_by_confidence_stable. cbn [List.filter]. rewrite IH. reflexivity.
Qed.

End SortByConfidence.

(** C8. The list returned by [analyze_readings] is in descending order
    of confidence, holds exactly the findings encountered, and findings
    of equal confidence are in the order in which the analysis
    encountered them. *)
Theorem analyze_readings_sorted_stable (r : readings) :
  StronglySorted descending (analyze_readings r)
  /\ Permutation (analyze_readings r) (encountered_faults r)
  /\ forall c : Z,
       List.filter (same_confidence c) (analyze_readings r)
       = List.filter (same_confidence c) (encountered_faults r).
Proof.
  unfold analyze_readings. split; [| split].
  - apply sort_by_confidence_sorted.
  - apply sort_by_confidence_perm.
  - intros c. apply sort_by_confidence_stable.
Qed.

(** ** Per-channel classification *)

Section PerChannel.

Lemma check_channel_app faults item :
  check_channel faults item = faults ++ check_channel [] item.
Proof.
  destruct item as [channel voltage]. unfold check_channel.
  destruct (ACTIVE_THRESHOLD <? voltage)%float; [| now rewrite app_nil_r].
  destruct (_is_voltage_drop voltage); [reflexivity |].
  destruct (_is_weak_signal voltage); [reflexivity | now rewrite app_nil_r].
Qed.

Lemma fold_check_channel (r : readings) faults :
  fold_left check_channel r faults = faults ++ flat_map (check_channel []) r.
Proof.
  revert faults. induction r as [| item rest IH]; intros faults; cbn [fold_left flat_map].
  - now rewrite app_nil_r.
  - rewrite IH, (check_channel_app faults item), <- app_assoc. reflexivity.
Qed.

(** What one channel contributes. *)
Lemma check_channel_drop c v :
  (ACTIVE_THRESHOLD <? v)%float = true -> (v <? WEAK_THRESHOLD)%float = true ->
  check_channel [] (c, v) = [_diagnose_voltage_drop c v].
Proof.
  intros Hlo Hhi. unfold check_channel, _is_voltage_drop. rewrite Hlo, Hhi. reflexivity.
Qed.

Lemma check_channel_weak c v :
  (WEAK_THRESHOLD <=? v)%float = true -> (v <? NORMAL_MIN)%float = true ->
  check_channel [] (c, v) = [_diagnose_weak_signal c v].
Proof.
  intros Hlo Hhi. unfold check_channel, _is_voltage_drop, _is_weak_signal.
  rewrite (weak_is_active v Hlo), Hlo, Hhi.
  (* a voltage at or above 9.0 is not below it *)
  assert (Hnot : (v <? WEAK_THRESHOLD)%float = false).
  { rewrite FloatAxioms.ltb_spec. apply SFleb_not_SFltb.
    rewrite <- FloatAxioms.leb_spec. exact Hlo. }
  rewrite Hnot. reflexivity.
Qed.

Lemma check_channel_inactive faults c v :
  (ACTIVE_THRESHOLD <? v)%float = false -> check_channel faults (c, v) = faults.
Proof. intros H. unfold check_channel. rewrite H. reflexivity. Qed.

Lemma check_channel_inv f c v :
  In f (check_channel [] (c, v)) ->
  (ACTIVE_THRESHOLD <? v)%float = true
  /\ ((f = _diagnose_voltage_drop c v /\ (v <? WEAK_THRESHOLD)%float = true)
      \/ (f = _diagnose_weak_signal c v
          /\ (WEAK_THRESHOLD <=? v)%float = true /\ (v <? NORMAL_MIN)%float = true)).
Proof.
  unfold check_channel, _is_voltage_drop, _is_weak_signal.
  destruct (ACTIVE_THRESHOLD <? v)%float; [| intros []].
  destruct (v <? WEAK_THRESHOLD)%float eqn:Hdrop; cbn [andb].
  - intros [<- | []]. split; [reflexivity | left; split; reflexivity].
  - destruct (WEAK_THRESHOLD <=? v)%float; cbn [andb]; [| intros []].
    destruct (v <? NORMAL_MIN)%float; [| intros []].
    intros [<- | []]. split; [reflexivity | right; repeat split; reflexivity].
Qed.

Lemma in_encountered_faults f (r : readings) :
  In f (encountered_faults r) <->
  (exists item, In item r /\ In f (check_channel [] item))
  \/ _detect_cross_wiring r = Some f
  \/ _detect_ground_fault r = Some f.
Proof.
  unfold encountered_faults. rewrite fold_check_channel, app_nil_l.
  assert (Happend : forall l o, In f (append_if_found l o) <-> In f l \/ o = Some f).
  { intros l [g |]; cbn [append_if_found].
    - rewrite in_app_iff. cbn [In]. split.
      + intros [H | [-> | []]]; [left | right]; easy.
      + intros [H | [= ->]]; [left | right; left]; easy.
    - split; [now left | intros [H | H]; [exact H | discriminate]]. }
  rewrite !Happend, in_flat_map. tauto.
Qed.

Lemma in_analyze_readings f (r : readings) :
  In f (analyze_readings r) <-> In f (encountered_faults r).
Proof.
  unfold analyze_readings.
  split; apply Permutation_in; [| symmetry]; apply sort_by_confidence_perm.
Qed.

Lemma cross_wiring_name f (r : readings) :
  _detect_cross_wiring r = Some f -> name f = "POSSIBLE_CROSS_WIRE".
Proof.
  unfold _detect_cross_wiring.
  destruct (_ && _); [| discriminate].
  destruct (_ <? _)%float; [| discriminate].
  intros [= <-]. reflexivity.
Qed.

Lemma ground_fault_name f (r : readings) :
  _detect_ground_fault r = Some f -> name f = "GROUND_FAULT".
Proof.
  unfold _detect_ground_fault.
  destruct (3 <=? _); [| discriminate].
  destruct (_ <? _)%float; [| discriminate].
  intros [= <-]. reflexivity.
Qed.

End PerChannel.

(** C5. A channel is flagged only if its voltage exceeds the 3.0 V
    active floor: a voltage in (3.0, 9.0) yields a VOLTAGE_DROP finding
    at confidence 85, a voltage in [9.0, 11.0) a WEAK_SIGNAL finding at
    confidence 70, every VOLTAGE_DROP or WEAK_SIGNAL finding stems from
    such a channel, and a voltage at or below 3.0 yields no finding for
    its channel; [analyze({brake: 7.0})] is exactly one VOLTAGE_DROP
    finding at confidence 85. *)
Theorem analyze_readings_per_channel :
  (forall (r : readings) c v,
      In (c, v) r -> (3.0 <? v)%float = true -> (v <? 9.0)%float = true ->
      In (_diagnose_voltage_drop c v) (analyze_readings r)
      /\ name (_diagnose_voltage_drop c v) = "VOLTAGE_DROP"
      /\ confidence (_diagnose_voltage_drop c v) = 85)
  /\ (forall (r : readings) c v,
      In (c, v) r -> (9.0 <=? v)%float = true -> (v <? 11.0)%float = true ->
      In (_diagnose_weak_signal c v) (analyze_readings r)
      /\ name (_diagnose_weak_signal c v) = "WEAK_SIGNAL"
      /\ confidence (_diagnose_weak_signal c v) = 70)
  /\ (forall (r : readings) f,
      In f (analyze_readings r) ->
      name f = "VOLTAGE_DROP" \/ name f = "WEAK_SIGNAL" ->
      exists c v,
        In (c, v) r /\ (3.0 <? v)%float = true
        /\ ((f = _diagnose_voltage_drop c v /\ (v <? 9.0)%float = true)
            \/ (f = _diagnose_weak_signal c v
                /\ (9.0 <=? v)%float = true /\ (v <? 11.0)%float = true)))
  /\ (forall faults c v,
      (v <=? 3.0)%float = true -> check_channel faults (c, v) = faults)
  /\ (forall r : readings,
      (forall c v, In (c, v) r -> (v <=? 3.0)%float = true) -> analyze_readings r = [])
  /\ analyze_readings [("brake", 7.0%float)] = [_diagnose_voltage_drop "brake" 7.0%float].
Proof.
  repeat apply conj.
  - intros r c v Hin Hlo Hhi. split; [| split; reflexivity].
    apply in_analyze_readings, in_encountered_faults. left.
    exists (c, v). split; [exact Hin |].
    rewrite (check_channel_drop c v Hlo Hhi). now left.
  - intros r c v Hin Hlo Hhi. split; [| split; reflexivity].
    apply in_analyze_readings, in_encountered_faults. left.
    exists (c, v). split; [exact Hin |].
    rewrite (check_channel_weak c v Hlo Hhi). now left.
  - intros r f Hin Hname.
    apply in_analyze_readings, in_encountered_faults in Hin.
    destruct Hin as [[[c v] [Hin Hf]] | [Hcross | Hground]].
    + exists c, v. split; [exact Hin |]. now apply check_channel_inv.
    + apply cross_wiring_name in Hcross. rewrite Hcross in Hname.
      destruct Hname; discriminate.
    + apply ground_fault_name in Hground. rewrite Hground in Hname.
      destruct Hname; discriminate.
  - intros faults c v Hv. apply check_channel_inactive, not_above_floor, Hv.
  - intros r Hall.
    destruct (analyze_readings r) as [| f rest] eqn:Hres; [reflexivity | exfalso].
    assert (Hin : In f (analyze_readings r)) by (rewrite Hres; now left).
    apply in_analyze_readings, in_encountered_faults in Hin.
    destruct Hin as [[[c v] [Hin Hf]] | [Hcross | Hground]].
    + apply check_channel_inv in Hf. destruct Hf as [Hactive _].
      rewrite (not_above_floor v (Hall c v Hin)) in Hactive. discriminate.
    + unfold _detect_cross_wiring in Hcross.
      assert (Hleft : (ACTIVE_THRESHOLD <? dict_get r "left" 0%float)%float = false).
      { clear -Hall. induction r as [| [k w] rest IH]; cbn [dict_get]; [reflexivity |].
        destruct (String.eqb k "left").
        - apply not_above_floor, (Hall k w). now left.
        - apply IH. intros c v Hin. apply (Hall c v). now right. }
      rewrite Hleft in Hcross. discriminate.
    + unfold _detect_ground_fault in Hground.
      assert (Hnone : List.filter (fun v => (ACTIVE_THRESHOLD <? v)%float) (dict_values r) = []).
      { clear -Hall. induction r as [| [k w] rest IH]; [reflexivity |].
        cbn [dict_values map snd List.filter].
        rewrite (not_above_floor w (Hall k w (or_introl eq_refl))).
        apply IH. intros c v Hin. apply (Hall c v). now right. }
      rewrite Hnone in Hground. discriminate.
  - vm_compute. reflexivity.
Qed.

(** The classification at work on a two-channel snapshot: brake at
    7.0 V is a voltage drop, tail at 2.0 V is not flagged. *)
Lemma analyze_readings_per_channel_witness :
  In (_diagnose_voltage_drop "brake" 7.0%float)
     (analyze_readings [("brake", 7.0%float); ("tail", 2.0%float)])
  /\ check_channel [] ("tail", 2.0%float) = [].
Proof.
  split.
  - apply (proj1 analyze_readings_per_channel
             [("brake", 7.0%float); ("tail", 2.0%float)] "brake" 7.0%float);
      [now left | reflexivity | reflexivity].
  - apply (proj1 (proj2 (proj2 (proj2 analyze_readings_per_channel)))). reflexivity.
Defined.

(** ** The bounded history *)

Section History.

Lemma add_all_snoc h adds e :
  add_all h (adds ++ [e])
  = add_reading (add_all h adds) (timestamp e) (entry_readings e) (entry_faults e).
Proof. unfold add_all. rewrite fold_left_app. reflexivity. Qed.

Lemma add_reading_max_history h ts r faults :
  max_history (add_reading h ts r faults) = max_history h.
Proof. reflexivity. Qed.

Lemma add_all_max_history h adds :
  max_history (add_all h adds) = max_history h.
Proof.
  induction adds as [| e adds IH] using rev_ind; [reflexivity |].
  rewrite add_all_snoc, add_reading_max_history. exact IH.
Qed.

Lemma entry_eta e : mkEntry (timestamp e) (entry_readings e) (entry_faults e) = e.
Proof. destruct e. reflexivity. Qed.

Lemma pop_first_drop (l : list entry) : pop_first l = drop 1 l.
Proof. destruct l; reflexivity. Qed.

(** The stored entries after any number of additions to a fresh
    history: the most recent [max_history] of them, in order. *)
Lemma history_add_all cap adds :
  0 <= cap ->
  history (add_all (new_history cap) adds)
  = drop (length adds - Z.to_nat cap) adds.
Proof.
  intros Hcap. induction adds as [| e adds IH] using rev_ind; [reflexivity |].
  rewrite add_all_snoc. unfold add_reading. cbn [history].
  rewrite add_all_max_history, IH, entry_eta. cbn [max_history new_history].
  rewrite !length_app, length_drop. cbn [length].
  destruct (Z.gtb_spec (Z.of_nat (length adds - (length adds - Z.to_nat cap) + 1)) cap)
    as [Hfull | Hfull].
  - rewrite pop_first_drop, <- drop_app_le by lia.
    rewrite drop_drop. f_equal. lia.
  - replace (length adds - Z.to_nat cap)%nat with 0%nat by lia.
    replace (length adds + 1 - Z.to_nat cap)%nat with 0%nat by lia.
    reflexivity.
Qed.

End History.

(** C7. After [N] additions to a fresh history of capacity [cap] the
    history holds exactly [min N cap] entries, never more than [cap],
    and they are the most recent ones in insertion order; an addition
    to a full history removes its single oldest entry. *)
Theorem history_bounded_fifo (cap : Z) (adds : list entry) :
  0 <= cap ->
  let h := add_all (new_history cap) adds in
  Z.of_nat (length (history h)) = Z.min (Z.of_nat (length adds)) cap
  /\ Z.of_nat (length (history h)) <= cap
  /\ history h = drop (length adds - Z.to_nat cap) adds
  /\ forall e,
       Z.of_nat (length (history h)) = cap ->
       history (add_reading h (timestamp e) (entry_readings e) (entry_faults e))
       = drop 1 (history h ++ [e]).
Proof.
  intros Hcap h.
  assert (Hh : history h = drop (length adds - Z.to_nat cap) adds)
    by (apply history_add_all, Hcap).
  assert (Hlen : Z.of_nat (length (history h)) = Z.min (Z.of_nat (length adds)) cap)
    by (rewrite Hh, length_drop; lia).
  repeat split.
  - exact Hlen.
  - lia.
  - exact Hh.
  - intros e Hfull. unfold add_reading. cbn [history].
    unfold h at 2. rewrite add_all_max_history. cbn [max_history new_history].
    rewrite entry_eta, length_app. cbn [length].
    destruct (Z.gtb_spec (Z.of_nat (length (history h) + 1)) cap) as [_ | Hno]; [| lia].
    apply pop_first_drop.
Qed.

(** With the default capacity, 101 additions keep the last 100. *)
Lemma history_bounded_fifo_witness :
  let adds := replicate 101 (mkEntry 0%float [] []) in
  let h := add_all (new_history default_max_history) adds in
  Z.of_nat (length (history h)) = Z.min (Z.of_nat (length adds)) default_max_history
  /\ Z.of_nat (length (history h)) <= default_max_history
  /\ history h = drop (length adds - Z.to_nat default_max_history) adds
  /\ forall e,
       Z.of_nat (length (history h)) = default_max_history ->
       history (add_reading h (timestamp e) (entry_readings e) (entry_faults e))
       = drop 1 (history h ++ [e]).
Proof.
  apply (history_bounded_fifo default_max_history (replicate 101 (mkEntry 0%float [] []))).
  unfold default_max_history. lia.
Defined.

(** C10. The [threshold] argument of [detect_intermittent_fault] has no
    influence on its result, which is decided by the fixed bounds 0.1
    and 0.9 alone. *)
Theorem threshold_has_no_influence
    (self : DiagnosticHistory) (fault_name : string) (t1 t2 : float) :
  detect_intermittent_fault self fault_name t1
  = detect_intermittent_fault self fault_name t2
  /\ detect_intermittent_fault self fault_name t1
     = (if Z.of_nat (length (history self)) <? 10 then false
        else
          let percentage :=
            int_true_div (default 0 (fault_counts self !! fault_name))
                         (Z.of_nat (length (history self))) in
          (0.1 <? percentage)%float && (percentage <? 0.9)%float).
Proof.
  split; unfold detect_intermittent_fault;
    destruct (Z.of_nat (length (history self)) <? 10); reflexivity.
Qed.

(** C2. Evaluation of [detect_intermittent_fault] where it departs from
    the fraction of stored entries that contain the fault. It does
    return false below ten stored entries. With ten entries of which
    one holds two VOLTAGE_DROP findings it answers true, since it
    divides the number of findings (2) by the number of entries; the
    fraction of entries with the fault is 1/10, not above 0.1. After
    eviction it still counts the findings of entries no longer stored:
    with capacity 10, five faulty entries followed by ten clean ones
    leave no stored entry with the fault, and it answers true. *)
Theorem intermittent_counts_findings_not_entries :
  (forall self fault_name threshold,
      Z.of_nat (length (history self)) < 10 ->
      detect_intermittent_fault self fault_name threshold = false)
  /\ (detect_intermittent_fault
        (add_all (new_history default_max_history) ten_samples_one_faulty)
        "VOLTAGE_DROP" default_threshold = true
      /\ is_intermittent_spec
           (add_all (new_history default_max_history) ten_samples_one_faulty)
           "VOLTAGE_DROP" = false)
  /\ (detect_intermittent_fault
        (add_all (new_history 10) five_faulty_then_ten_clean)
        "VOLTAGE_DROP" default_threshold = true
      /\ is_intermittent_spec
           (add_all (new_history 10) five_faulty_then_ten_clean)
           "VOLTAGE_DROP" = false
      /\ List.filter (entry_has_kind "VOLTAGE_DROP")
           (history (add_all (new_history 10) five_faulty_then_ten_clean)) = []).
Proof.
  split; [| split].
  - intros self fault_name threshold Hfew. unfold detect_intermittent_fault.
    destruct (Z.ltb_spec (Z.of_nat (length (history self))) 10); [reflexivity | lia].
  - split; vm_compute; reflexivity.
  - repeat split; vm_compute; reflexivity.
Qed.

(** ** The relay manager *)

(** C9. A relay index outside 0..5 is rejected: [set_channel] logs an
    error, writes no output and leaves the manager, hence the state of
    every relay, as it was; no other channel is written in its place. *)
Theorem set_channel_rejects_invalid_index
    (self : Relay.RelayManager) (channel_idx : Z) (state : bool) :
  length (Relay.relays self) = 6%nat ->
  ~ (0 <= channel_idx <= 5) ->
  Relay.set_channel self channel_idx state
  = (self, [Log "relay" LogLevel.ERROR ("Invalid relay index: {}", [FInt channel_idx])])
  /\ (forall i, Relay.get_channel (fst (Relay.set_channel self channel_idx state)) i
               = Relay.get_channel self i)
  /\ gpio_after (Relay.relays self) (snd (Relay.set_channel self channel_idx state))
     = Relay.relays self
  /\ Relay.get_channel self channel_idx = false.
Proof.
  intros Hlen Hout.
  assert (Hguard : negb ((0 <=? channel_idx) && (channel_idx <? Z.of_nat (length (Relay.relays self)))) = true).
  { rewrite Hlen.
    destruct (Z.leb_spec 0 channel_idx), (Z.ltb_spec channel_idx (Z.of_nat 6)); cbn; try reflexivity.
    lia. }
  assert (Hset : Relay.set_channel self channel_idx state
                 = (self, [Log "relay" LogLevel.ERROR ("Invalid relay index: {}", [FInt channel_idx])])).
  { unfold Relay.set_channel. rewrite Hguard. reflexivity. }
  rewrite Hset. cbn [fst snd]. repeat split.
  unfold Relay.get_channel. rewrite Hguard. reflexivity.
Qed.

(** Index 6 on the manager as constructed, with relay 2 energized. *)
Lemma set_channel_rejects_invalid_index_witness :
  Relay.set_channel (fst (Relay.set_channel Relay.new_relay_manager 2 true)) 6 true
  = (fst (Relay.set_channel Relay.new_relay_manager 2 true),
     [Log "relay" LogLevel.ERROR ("Invalid relay index: {}", [FInt 6])]).
Proof.
  apply (set_channel_rejects_invalid_index
           (fst (Relay.set_channel Relay.new_relay_manager 2 true)) 6 true).
  - reflexivity.
  - lia.
Defined.

(** ** The controller *)

Section Runs.

Lemma returns_bind {A B} (c : M A) (k : A -> M B) m a m1 tr1 b m2 tr2 :
  returns c m a m1 tr1 -> returns (k a) m1 b m2 tr2 ->
  returns (bind c k) m b m2 (tr1 ++ tr2).
Proof. unfold returns, bind. intros -> . cbn. intros ->. reflexivity. Qed.

Lemma raises_bind {A B} (c : M A) (k : A -> M B) m a m1 tr1 e m2 tr2 :
  returns c m a m1 tr1 -> raises (k a) m1 e m2 tr2 ->
  raises (bind c k) m e m2 (tr1 ++ tr2).
Proof. unfold returns, raises, bind. intros -> . cbn. intros ->. reflexivity. Qed.

Lemma raises_first {A B} (c : M A) (k : A -> M B) m e m1 tr1 :
  raises c m e m1 tr1 -> raises (bind c k) m e m1 tr1.
Proof. unfold raises, bind. intros -> . reflexivity. Qed.

Lemma adc_reads_app tr1 tr2 : adc_reads (tr1 ++ tr2) = adc_reads tr1 ++ adc_reads tr2.
Proof. apply flat_map_app. Qed.
Lemma shown_readings_app tr1 tr2 : shown_readings (tr1 ++ tr2) = shown_readings tr1 ++ shown_readings tr2.
Proof. apply flat_map_app. Qed.
Lemma entered_app tr1 tr2 : entered (tr1 ++ tr2) = entered tr1 ++ entered tr2.
Proof. apply flat_map_app. Qed.

Lemma returns_if {A} (b : bool) (c1 c2 : M A) m a m' tr1 tr2 :
  returns c1 m a m' tr1 -> returns c2 m a m' tr2 ->
  returns (if b then c1 else c2) m a m' (if b then tr1 else tr2).
Proof. destruct b; intros H1 H2; assumption. Qed.

Lemma read_channels_run items detailed r m :
  exists tr,
    returns (read_channels items detailed r) m
      (fold_left (fun acc item =>
                   dict_set acc (fst item) (adc m (adc_board (snd item)) (adc_chan (snd item))))
                 items r) m tr
    /\ adc_reads tr = map (fun item => (adc_board (snd item), adc_chan (snd item))) items
    /\ shown_readings tr = []
    /\ entered tr = [].
Proof.
  revert r. induction items as [| [channel_name channel_info] rest IH]; intros r.
  - exists []. repeat split.
  - cbn [read_channels fold_left fst snd map].
    destruct (IH (dict_set r channel_name (adc m (adc_board channel_info) (adc_chan channel_info))))
      as (tr & Hrun & Hreads & Hshown & Hentered).
    eexists. split.
    + eapply returns_bind; [reflexivity |].
      eapply returns_bind; [apply returns_if; reflexivity |].
      eapply returns_bind; [apply returns_if; reflexivity |].
      exact Hrun.
    + rewrite !adc_reads_app, !shown_readings_app, !entered_app, Hreads, Hshown, Hentered.
      destruct (3.0 <? _)%float, detailed; repeat split.
Qed.

Lemma read_all_channels_run detailed m :
  exists tr,
    returns (_read_all_channels detailed) m
      [("brake", adc m 0 0); ("tail", adc m 0 1); ("left", adc m 0 2);
       ("right", adc m 0 3); ("aux", adc m 1 0); ("reverse", adc m 1 1)] m tr
    /\ adc_reads tr = [(0, 0); (0, 1); (0, 2); (0, 3); (1, 0); (1, 1)]
    /\ shown_readings tr =
         [[("brake", adc m 0 0); ("tail", adc m 0 1); ("left", adc m 0 2);
           ("right", adc m 0 3); ("aux", adc m 1 0); ("reverse", adc m 1 1)]]
    /\ entered tr = [].
Proof.
  destruct (read_channels_run CHANNELS detailed [] m) as (tr & Hrun & Hreads & Hshown & Hentered).
  eexists. split.
  - unfold _read_all_channels.
    eapply returns_bind; [exact Hrun |].
    eapply returns_bind; reflexivity.
  - rewrite !adc_reads_app, !shown_readings_app, !entered_app, Hreads, Hshown, Hentered.
    repeat split.
Qed.

End Runs.

(** C1. Evaluation of the mode-button handler. [_cycle_mode] raises at
    its first statement, [list(TestMode)], on every machine: the mode
    is not advanced and [all_off] is not reached. A press of the mode
    button on the freshly booted tester ends [check_buttons] with that
    TypeError, still in VehicleTester mode. *)
Theorem cycle_mode_raises :
  (forall m : machine,
      _cycle_mode m
      = mkRun (Raise (TypeError "'type' object is not iterable")) m [Enter CycleMode])
  /\ result (check_buttons (mkSample 100 false true) (boot adc_12v None))
     = Raise (TypeError "'type' object is not iterable")
  /\ current_mode (app (final (check_buttons (mkSample 100 false true) (boot adc_12v None))))
     = TestMode.VEHICLE_TESTER
  /\ effects (check_buttons (mkSample 100 false true) (boot adc_12v None)) = [Enter CycleMode].
Proof.
  split; [intros m; reflexivity |].
  repeat split; vm_compute; reflexivity.
Qed.

(** C3. Evaluation of the short-press handler. [_trigger_test] raises
    at its log line, [self.current_mode.name] on an int, on every
    machine and so in every mode: the mode dispatch below it is not
    reached, no channel is read and nothing is shown. A 1000 ms press
    of the action button on the freshly booted tester (VehicleTester
    mode) ends the polling with that AttributeError, the handler
    entered once and no channel read or shown. *)
Theorem short_press_raises :
  (forall m : machine,
      _trigger_test m
      = mkRun (Raise (AttributeError "'int' object has no attribute 'name'")) m
              [Enter TriggerTest])
  /\ current_mode (app (boot adc_12v None)) = TestMode.VEHICLE_TESTER
  /\ result (poll (hold_samples 0 [500] 1000 []) (boot adc_12v None))
     = Raise (AttributeError "'int' object has no attribute 'name'")
  /\ entered (effects (poll (hold_samples 0 [500] 1000 []) (boot adc_12v None)))
     = [TriggerTest]
  /\ adc_reads (effects (poll (hold_samples 0 [500] 1000 []) (boot adc_12v None))) = []
  /\ shown_readings (effects (poll (hold_samples 0 [500] 1000 []) (boot adc_12v None))) = [].
Proof.
  split; [intros m; reflexivity |].
  repeat split; vm_compute; reflexivity.
Qed.

(** The same in PassThrough mode, where the dispatch has no branch
    either: a short press reads no channel and shows no readings, be it
    through the whole handler, its mode dispatch, or a polled 1000 ms
    press. *)
Lemma short_press_in_pass_through_reads_nothing :
  current_mode (app (machine_in TestMode.PASS_THROUGH)) = TestMode.PASS_THROUGH
  /\ _trigger_test_dispatch (machine_in TestMode.PASS_THROUGH)
     = mkRun (Ok tt) (machine_in TestMode.PASS_THROUGH) []
  /\ adc_reads (effects (_trigger_test (machine_in TestMode.PASS_THROUGH))) = []
  /\ entered (effects (poll (hold_samples 0 [500] 1000 []) (machine_in TestMode.PASS_THROUGH)))
     = [TriggerTest]
  /\ adc_reads (effects (poll (hold_samples 0 [500] 1000 []) (machine_in TestMode.PASS_THROUGH)))
     = [].
Proof. repeat split; vm_compute; reflexivity. Qed.

(** What the handler goes on to after its log line, were the line to
    return: the mode dispatch performs one immediate detailed
    read-and-display cycle over all six channels in VehicleTester mode
    only: each ADC input is read once, in the order of CHANNELS, and
    the six readings are shown; no clock or polling interval is
    consulted and the machine is left as it was. In PassThrough mode
    the dispatch does nothing. *)
Theorem short_press_dispatch (m : machine) :
  (current_mode (app m) = TestMode.VEHICLE_TESTER ->
     exists tr,
       _trigger_test_dispatch m = mkRun (Ok tt) m tr
       /\ adc_reads tr = [(0, 0); (0, 1); (0, 2); (0, 3); (1, 0); (1, 1)]
       /\ shown_readings tr =
            [[("brake", adc m 0 0); ("tail", adc m 0 1); ("left", adc m 0 2);
              ("right", adc m 0 3); ("aux", adc m 1 0); ("reverse", adc m 1 1)]]
       /\ entered tr = [])
  /\ (current_mode (app m) = TestMode.PASS_THROUGH ->
      _trigger_test_dispatch m = mkRun (Ok tt) m []
      /\ adc_reads (effects (_trigger_test m)) = []
      /\ shown_readings (effects (_trigger_test m)) = []).
Proof.
  split.
  - intros Hmode.
    destruct (read_all_channels_run true m) as (tr & Hrun & Hobs).
    exists (tr ++ []). split; [| rewrite app_nil_r; exact Hobs].
    unfold _trigger_test_dispatch.
    change (returns (do a <- get_app;
                     if current_mode a =? TestMode.TRAILER_TESTER then _run_trailer_test_sequence
                     else if current_mode a =? TestMode.VEHICLE_TESTER
                          then _read_all_channels true ;; ret tt else ret tt) m tt m ([] ++ (tr ++ []))).
    eapply returns_bind; [reflexivity |].
    cbn beta. rewrite Hmode. cbn [Z.eqb TestMode.VEHICLE_TESTER TestMode.TRAILER_TESTER].
    eapply returns_bind; [exact Hrun | reflexivity].
  - intros Hmode. split; [| split; reflexivity].
    unfold _trigger_test_dispatch, bind. cbn [get_app result final effects].
    rewrite Hmode. reflexivity.
Qed.

(** The dispatch on the booted tester (VehicleTester mode) and on one in
    PassThrough mode. *)
Lemma short_press_dispatch_witness :
  (exists tr,
      _trigger_test_dispatch (boot adc_12v None) = mkRun (Ok tt) (boot adc_12v None) tr
      /\ adc_reads tr = [(0, 0); (0, 1); (0, 2); (0, 3); (1, 0); (1, 1)]
      /\ shown_readings tr =
           [[("brake", 12.0%float); ("tail", 12.0%float); ("left", 12.0%float);
             ("right", 12.0%float); ("aux", 12.0%float); ("reverse", 12.0%float)]]
      /\ entered tr = [])
  /\ _trigger_test_dispatch (machine_in TestMode.PASS_THROUGH)
     = mkRun (Ok tt) (machine_in TestMode.PASS_THROUGH) [].
Proof.
  split.
  - apply (proj1 (short_press_dispatch (boot adc_12v None))). reflexivity.
  - apply (proj2 (short_press_dispatch (machine_in TestMode.PASS_THROUGH))). reflexivity.
Defined.

(** ** The test sequence *)

(** C4 as stated fails on interruption: a KeyboardInterrupt during the
    first hold ends the sequence with the tail relay (1) energized. *)
Lemma sequence_interrupted_leaves_relay_energized :
  result (_run_trailer_test_sequence (boot adc_12v (Some 0%nat))) = Raise KeyboardInterrupt
  /\ Relay.relays (relays (app (final (_run_trailer_test_sequence (boot adc_12v (Some 0%nat))))))
     = [false; true; false; false; false; false]
  /\ Relay.get_channel
       (relays (app (final (_run_trailer_test_sequence (boot adc_12v (Some 0%nat)))))) 1
     = true.
Proof. repeat split; vm_compute; reflexivity. Qed.

(** One interruption schedule of the sequence, settled by evaluation. *)
Ltac sequence_case Hforall :=
  split; [apply Hforall; vm_compute; reflexivity |];
  split; [vm_compute; reflexivity |];
  split; [intros Hnone; first [discriminate Hnone | vm_compute; reflexivity] |];
  split; [intros Hok; first [vm_compute; reflexivity | vm_compute in Hok; discriminate Hok]
         | vm_compute; reflexivity].

(** C4, amended. Started with all relays off, the test sequence never
    has more than one relay energized at any instant, whether it runs
    to completion or is interrupted in one of its sleeps; with no
    interruption pending it completes; after completion all relays are
    de-energized; and whatever way it ended, [shutdown] forces all
    relays off. *)
Theorem test_sequence_relays (m : machine) :
  relays (app m) = Relay.new_relay_manager ->
  Forall (fun outputs => (energized outputs <= 1)%nat)
         (gpio_history (Relay.relays (relays (app m)))
                       (effects (_run_trailer_test_sequence m)))
  /\ Relay.relays (relays (app (final (_run_trailer_test_sequence m))))
     = gpio_after (Relay.relays (relays (app m))) (effects (_run_trailer_test_sequence m))
  /\ (interrupt_in m = None -> result (_run_trailer_test_sequence m) = Ok tt)
  /\ (result (_run_trailer_test_sequence m) = Ok tt ->
      relays (app (final (_run_trailer_test_sequence m))) = Relay.new_relay_manager)
  /\ relays (app (final (shutdown (final (_run_trailer_test_sequence m)))))
     = Relay.new_relay_manager.
Proof.
  destruct m as [[md rn rl b1 t1 b2 t2 b3] f i]. cbn [app relays interrupt_in]. intros ->.
  assert (Hforall : forall tr,
             forallb at_most_one_energized
                     (gpio_history (Relay.relays Relay.new_relay_manager) tr) = true ->
             Forall (fun outputs => (energized outputs <= 1)%nat)
                    (gpio_history (Relay.relays Relay.new_relay_manager) tr)).
  { intros tr Hall. apply List.Forall_forall. intros outputs Hin.
    apply Nat.leb_le. revert outputs Hin. apply forallb_forall. exact Hall. }
  destruct i as [k |].
  - do 12 (destruct k as [| k]; [sequence_case Hforall |]).
    destruct k; sequence_case Hforall.
  - sequence_case Hforall.
Qed.

(** The sequence on the booted tester, uninterrupted. *)
Lemma test_sequence_relays_witness :
  Forall (fun outputs => (energized outputs <= 1)%nat)
         (gpio_history (Relay.relays (relays (app (boot adc_12v None))))
                       (effects (_run_trailer_test_sequence (boot adc_12v None))))
  /\ result (_run_trailer_test_sequence (boot adc_12v None)) = Ok tt
  /\ relays (app (final (_run_trailer_test_sequence (boot adc_12v None))))
     = Relay.new_relay_manager.
Proof.
  destruct (test_sequence_relays (boot adc_12v None) eq_refl)
    as (Hone & _ & Hcompletes & Hoff & _).
  split; [exact Hone |]. split; [apply Hcompletes; reflexivity |].
  apply Hoff, Hcompletes. reflexivity.
Defined.

(** ** The button tracker *)

Section Buttons.

Lemma check_press md rn rm mb mt st tg f i t :
  check_buttons (held_sample t) (mkMachine (mkApp md rn rm mb mt true st tg) f i)
  = mkRun (Ok tt) (mkMachine (mkApp md rn rm true mt false t false) f i) [].
Proof. reflexivity. Qed.

Lemma check_idle md rn rm mb mt st tg f i t :
  check_buttons (released_sample t) (mkMachine (mkApp md rn rm mb mt true st tg) f i)
  = mkRun (Ok tt) (mkMachine (mkApp md rn rm true mt true st tg) f i) [].
Proof. reflexivity. Qed.

Lemma check_held_quiet md rn rm mb mt st tg f i t :
  (t - st >? LONG_PRESS_MS) && negb tg = false ->
  check_buttons (held_sample t) (mkMachine (mkApp md rn rm mb mt false st tg) f i)
  = mkRun (Ok tt) (mkMachine (mkApp md rn rm true mt false st tg) f i) [].
Proof.
  intros H. unfold check_buttons, bind.
  cbn [held_sample clock mode_level test_level get_app result final effects app negb andb ret update_app
       mode_button_last test_button_last _test_press_start _long_press_triggered with_mode_button_last
       with_test_button_last current_mode running relays _mode_press_time adc interrupt_in].
  rewrite H. reflexivity.
Qed.

Lemma check_release_quiet md rn rm mb mt st tg f i t :
  (t - st <? LONG_PRESS_MS) && negb tg = false ->
  check_buttons (released_sample t) (mkMachine (mkApp md rn rm mb mt false st tg) f i)
  = mkRun (Ok tt) (mkMachine (mkApp md rn rm true mt true st tg) f i) [].
Proof.
  intros H. unfold check_buttons, bind.
  cbn [released_sample clock mode_level test_level get_app result final effects app negb andb ret update_app
       mode_button_last test_button_last _test_press_start _long_press_triggered with_mode_button_last
       with_test_button_last current_mode running relays _mode_press_time adc interrupt_in].
  rewrite H. reflexivity.
Qed.

Lemma check_release_short md rn rm mb mt st f i t :
  (t - st <? LONG_PRESS_MS) = true ->
  check_buttons (released_sample t) (mkMachine (mkApp md rn rm mb mt false st false) f i)
  = mkRun (Raise (AttributeError "'int' object has no attribute 'name'"))
          (mkMachine (mkApp md rn rm true mt false st false) f i) [Enter TriggerTest].
Proof.
  intros H. unfold check_buttons, bind.
  cbn [released_sample clock mode_level test_level get_app result final effects app negb andb ret update_app
       mode_button_last test_button_last _test_press_start _long_press_triggered with_mode_button_last
       with_test_button_last current_mode running relays _mode_press_time adc interrupt_in].
  rewrite H. reflexivity.
Qed.

Lemma with_relays_same a : with_relays (relays a) a = a.
Proof. destruct a. reflexivity. Qed.

Lemma steady_bind {A B : Type} hs1 hs2 hs (c : M A) (k : A -> M B) :
  steady hs1 c -> (forall x, steady hs2 (k x)) -> hs = hs1 ++ hs2 ->
  steady hs (bind c k).
Proof.
  intros Hc Hk -> a f.
  destruct (Hc a f) as (x & rm & tr & Hrun & Htr).
  destruct (Hk x (with_relays rm a) f) as (y & rm' & tr' & Hrun' & Htr').
  exists y, rm', (tr ++ tr'). split.
  - unfold bind. rewrite Hrun. cbn [result final effects]. rewrite Hrun'. reflexivity.
  - rewrite entered_app, Htr, Htr'. reflexivity.
Qed.

Lemma steady_ret {A : Type} (x : A) : steady [] (ret x).
Proof. intros a f. exists x, (relays a), []. rewrite with_relays_same. split; reflexivity. Qed.

Lemma steady_emit events : steady (entered events) (emit events).
Proof. intros a f. exists tt, (relays a), events. rewrite with_relays_same. split; reflexivity. Qed.

Lemma steady_log logger level message : steady [] (log logger level message).
Proof. apply (steady_emit [Log logger level message]). Qed.

Lemma steady_display op : steady [] (display op).
Proof. apply (steady_emit [Display op]). Qed.

Lemma steady_pixels op : steady [] (pixels op).
Proof. apply (steady_emit [Pixels op]). Qed.

Lemma steady_enter h : steady [h] (enter h).
Proof. apply (steady_emit [Enter h]). Qed.

Lemma steady_sleep seconds : steady [] (time_sleep seconds).
Proof. intros a f. exists tt, (relays a), [Sleep seconds]. rewrite with_relays_same. split; reflexivity. Qed.

Lemma steady_adc b c : steady [] (adc_read_voltage b c).
Proof. intros a f. eexists _, (relays a), _. rewrite with_relays_same. split; reflexivity. Qed.

Lemma steady_get_app : steady [] get_app.
Proof. intros a f. exists a, (relays a), []. rewrite with_relays_same. split; reflexivity. Qed.

Lemma steady_lift {A : Type} (x : A) : steady [] (lift (Ok x)).
Proof. intros a f. exists x, (relays a), []. rewrite with_relays_same. split; reflexivity. Qed.

Lemma steady_if {A : Type} hs (b : bool) (c1 c2 : M A) :
  steady hs c1 -> steady hs c2 -> steady hs (if b then c1 else c2).
Proof. destruct b; intros; assumption. Qed.

Lemma set_channel_entered rm idx state : entered (snd (Relay.set_channel rm idx state)) = [].
Proof. unfold Relay.set_channel. destruct (negb _); reflexivity. Qed.

Lemma steady_set_channel idx state : steady [] (relays_set_channel idx state).
Proof.
  intros a f. unfold relays_set_channel, bind. cbn [get_app result final effects app].
  pose proof (set_channel_entered (relays a) idx state) as Hent.
  destruct (Relay.set_channel (relays a) idx state) as [rm events].
  exists tt, rm, events. split; [reflexivity | exact Hent].
Qed.

Lemma steady_for_each {A : Type} (body : A -> M unit) items :
  Forall (fun x => steady [] (body x)) items -> steady [] (for_each body items).
Proof.
  induction 1 as [| x rest Hx _ IH]; cbn [for_each].
  - apply steady_ret.
  - eapply steady_bind; [exact Hx | intros _; exact IH | reflexivity].
Qed.

Ltac steady :=
  repeat first
    [ apply steady_ret | apply steady_sleep | apply steady_adc | apply steady_get_app
    | apply steady_lift | apply steady_set_channel
    | apply steady_log | apply steady_display | apply steady_pixels | apply steady_enter
    | apply steady_if
    | eapply steady_bind; [ | intros ? | ] ].

Lemma steady_sequence_step step : In step test_sequence -> steady [] (sequence_step step).
Proof.
  intros Hin. repeat (destruct Hin as [<- | Hin]); [.. | destruct Hin];
    unfold sequence_step; cbn [dict_item CHANNELS String.eqb Ascii.eqb Bool.eqb];
    steady; reflexivity.
Qed.

Lemma steady_run_trailer_test_sequence : steady [] _run_trailer_test_sequence.
Proof.
  unfold _run_trailer_test_sequence.
  eapply steady_bind; [apply steady_log | intros _ | reflexivity].
  eapply steady_bind; [apply steady_display | intros _ | reflexivity].
  eapply (steady_bind [] []); [| intros _ | reflexivity].
  - apply steady_for_each, List.Forall_forall. intros step Hin. now apply steady_sequence_step.
  - steady; reflexivity.
Qed.

Lemma steady_read_channels items detailed r : steady [] (read_channels items detailed r).
Proof.
  revert r. induction items as [| [channel_name channel_info] rest IH]; intros r;
    cbn [read_channels]; steady; try apply IH; reflexivity.
Qed.

Lemma steady_read_all_channels detailed : steady [] (_read_all_channels detailed).
Proof.
  unfold _read_all_channels. steady; try apply steady_read_channels; reflexivity.
Qed.

Lemma steady_trigger_full_test : steady [TriggerFullTest] _trigger_full_test.
Proof.
  unfold _trigger_full_test.
  steady; try apply steady_run_trailer_test_sequence; try apply steady_read_all_channels;
    reflexivity.
Qed.

Lemma check_held_long md rn rm mb mt st f t :
  (t - st >? LONG_PRESS_MS) = true ->
  exists rm' tr,
    check_buttons (held_sample t) (mkMachine (mkApp md rn rm mb mt false st false) f None)
    = mkRun (Ok tt) (mkMachine (mkApp md rn rm' true mt false st true) f None) tr
    /\ entered tr = [TriggerFullTest].
Proof.
  intros H.
  destruct (steady_trigger_full_test (mkApp md rn rm true mt false st false) f)
    as ([] & rm' & tr & Hrun & Hent).
  exists rm', tr. split; [| exact Hent].
  unfold check_buttons, bind.
  cbn [held_sample clock mode_level test_level get_app result final effects app negb andb ret update_app
       mode_button_last test_button_last _test_press_start _long_press_triggered with_mode_button_last
       with_test_button_last current_mode running relays _mode_press_time adc interrupt_in].
  rewrite H. cbn [negb andb]. unfold with_mode_button_last.
  cbn [current_mode running relays mode_button_last _mode_press_time
       test_button_last _test_press_start _long_press_triggered].
  rewrite Hrun. cbn [result final effects]. rewrite !app_nil_r. reflexivity.
Qed.

Lemma poll_cons_ok x xs m m1 tr1 :
  check_buttons x m = mkRun (Ok tt) m1 tr1 ->
  poll (x :: xs) m = mkRun (result (poll xs m1)) (final (poll xs m1)) (tr1 ++ effects (poll xs m1)).
Proof. intros H. unfold poll. cbn [for_each]. unfold bind. rewrite H. reflexivity. Qed.

Lemma poll_cons_raise x xs m e m1 tr1 :
  check_buttons x m = mkRun (Raise e) m1 tr1 ->
  poll (x :: xs) m = mkRun (Raise e) m1 tr1.
Proof. intros H. unfold poll. cbn [for_each]. unfold bind. rewrite H. reflexivity. Qed.

Lemma poll_app_ok xs ys m m1 tr1 :
  poll xs m = mkRun (Ok tt) m1 tr1 ->
  poll (xs ++ ys) m = mkRun (result (poll ys m1)) (final (poll ys m1)) (tr1 ++ effects (poll ys m1)).
Proof.
  revert m m1 tr1. induction xs as [| x xs IH]; intros m m1 tr1 H.
  - injection H as <- <-. rewrite app_nil_l. destruct (poll ys m). reflexivity.
  - rewrite <- app_comm_cons. unfold poll in *. cbn [for_each] in *. unfold bind in *.
    destruct (check_buttons x m) as [[[] | e] m2 tr2]; cbn [result final effects] in *; [| discriminate].
    destruct (for_each check_buttons xs m2) as [[[] | e] m3 tr3] eqn:Hxs; cbn [result final effects] in *;
      [| discriminate].
    injection H as <- <-.
    rewrite (IH m2 m3 tr3 Hxs). cbn [result final effects]. rewrite app_assoc. reflexivity.
Qed.

Lemma poll_idle idle md rn rm mt st tg f i :
  poll (map released_sample idle) (mkMachine (mkApp md rn rm true mt true st tg) f i)
  = mkRun (Ok tt) (mkMachine (mkApp md rn rm true mt true st tg) f i) [].
Proof.
  induction idle as [| t idle IH]; [reflexivity |].
  cbn [map]. rewrite (poll_cons_ok _ _ _ _ _ (check_idle md rn rm true mt st tg f i t)).
  rewrite IH. reflexivity.
Qed.

Lemma poll_held held md rn rm mt st tg f :
  exists rm' tr,
    poll (map held_sample held) (mkMachine (mkApp md rn rm true mt false st tg) f None)
    = mkRun (Ok tt)
            (mkMachine (mkApp md rn rm' true mt false st (tg || existsb (past_threshold st) held)) f None)
            tr
    /\ entered tr = if negb tg && existsb (past_threshold st) held then [TriggerFullTest] else [].
Proof.
  revert rm tg. induction held as [| t held IH]; intros rm tg.
  - exists rm, []. cbn [map existsb]. rewrite orb_false_r, andb_false_r. split; reflexivity.
  - cbn [map existsb].
    destruct ((t - st >? LONG_PRESS_MS) && negb tg) eqn:Hfire.
    + apply andb_true_iff in Hfire. destruct Hfire as [Hlong Htg].
      destruct tg; [discriminate |].
      destruct (check_held_long md rn rm true mt st f t Hlong) as (rm1 & tr1 & Hrun1 & Hent1).
      destruct (IH rm1 true) as (rm2 & tr2 & Hrun2 & Hent2).
      exists rm2, (tr1 ++ tr2). rewrite (poll_cons_ok _ _ _ _ _ Hrun1), Hrun2.
      cbn [result final effects].
      change (past_threshold st t) with (t - st >? LONG_PRESS_MS). rewrite Hlong.
      cbn [orb negb andb] in *. split; [reflexivity |].
      rewrite entered_app, Hent1, Hent2. reflexivity.
    + destruct (IH rm tg) as (rm2 & tr2 & Hrun2 & Hent2).
      exists rm2, tr2.
      rewrite (poll_cons_ok _ _ _ _ _ (check_held_quiet md rn rm true mt st tg f None t Hfire)), Hrun2.
      cbn [result final effects].
      change (past_threshold st t) with (t - st >? LONG_PRESS_MS).
      destruct tg; cbn [orb negb andb] in *.
      * split; [reflexivity | exact Hent2].
      * rewrite andb_true_r in Hfire. rewrite Hfire. cbn [orb]. split; [reflexivity | exact Hent2].
Qed.

End Buttons.

(** C6, amended. One hold of the action button, seen by the polls of
    [check_buttons] with the mode button released and no interruption
    pending; an event is the call of its handler ([_trigger_full_test]
    for LongPressed, [_trigger_test] for Pressed). If a poll sees the
    button held more than 2000 ms after the press, exactly one
    LongPressed is emitted and nothing else, the release and later polls
    included. If no poll sees it held that long and the release is seen
    less than 2000 ms after the press, exactly one Pressed is emitted
    and nothing else. If no poll sees it held that long and the release
    is seen 2000 ms or more after the press, nothing is emitted. *)
Theorem action_button_hold (m : machine) (t0 : Z) (held : list Z) (t1 : Z) (idle : list Z) :
  test_button_last (app m) = true ->
  interrupt_in m = None ->
  (Exists (fun t => t - t0 > LONG_PRESS_MS) held ->
     entered (effects (poll (hold_samples t0 held t1 idle) m)) = [TriggerFullTest])
  /\ (Forall (fun t => t - t0 <= LONG_PRESS_MS) held -> t1 - t0 < LONG_PRESS_MS ->
      entered (effects (poll (hold_samples t0 held t1 idle) m)) = [TriggerTest])
  /\ (Forall (fun t => t - t0 <= LONG_PRESS_MS) held -> LONG_PRESS_MS <= t1 - t0 ->
      entered (effects (poll (hold_samples t0 held t1 idle) m)) = []
      /\ result (poll (hold_samples t0 held t1 idle) m) = Ok tt).
Proof.
  destruct m as [[md rn rm mb mt last st tg] f i]. cbn [app test_button_last interrupt_in].
  intros -> ->. unfold hold_samples.
  rewrite (poll_cons_ok _ _ _ _ _ (check_press md rn rm mb mt st tg f None t0)).
  cbn [result effects]. rewrite app_nil_l.
  destruct (poll_held held md rn rm mt t0 false f) as (rm1 & tr1 & Hheld & Hent1).
  rewrite (poll_app_ok _ _ _ _ _ Hheld). cbn [result effects orb negb andb] in *.
  rewrite entered_app, Hent1.
  assert (Hnone : Forall (fun t => t - t0 <= LONG_PRESS_MS) held ->
                  existsb (past_threshold t0) held = false).
  { intros Hshort. apply not_true_is_false. intros Hex. apply existsb_exists in Hex.
    destruct Hex as (t & Hin & Ht). rewrite List.Forall_forall in Hshort.
    specialize (Hshort t Hin). unfold past_threshold in Ht.
    destruct (Z.gtb_spec (t - t0) LONG_PRESS_MS); [lia | discriminate]. }
  split; [| split].
  - intros Hlong.
    assert (Hex : existsb (past_threshold t0) held = true).
    { apply existsb_exists. apply List.Exists_exists in Hlong. destruct Hlong as (t & Hin & Ht).
      exists t. split; [exact Hin |]. unfold past_threshold.
      destruct (Z.gtb_spec (t - t0) LONG_PRESS_MS); [reflexivity | lia]. }
    rewrite Hex.
    rewrite (poll_cons_ok _ _ _ _ _
               (check_release_quiet md rn rm1 true mt t0 true f None t1 (andb_false_r _))).
    rewrite poll_idle. reflexivity.
  - intros Hshort Hrelease. rewrite (Hnone Hshort).
    assert (Hlt : (t1 - t0 <? LONG_PRESS_MS) = true) by (apply Z.ltb_lt; exact Hrelease).
    rewrite (poll_cons_raise _ _ _ _ _ _ (check_release_short md rn rm1 true mt t0 f None t1 Hlt)).
    reflexivity.
  - intros Hshort Hrelease. rewrite (Hnone Hshort).
    assert (Hge : (t1 - t0 <? LONG_PRESS_MS) && negb false = false).
    { destruct (Z.ltb_spec (t1 - t0) LONG_PRESS_MS); [lia | reflexivity]. }
    rewrite (poll_cons_ok _ _ _ _ _
               (check_release_quiet md rn rm1 true mt t0 false f None t1 Hge)).
    rewrite poll_idle. split; reflexivity.
Qed.

(** A 2500 ms hold, a 1000 ms hold, and a hold released between the
    polls at 2000 ms and 2020 ms, on the booted tester polled every
    20 ms. *)
Lemma action_button_hold_witness :
  entered (effects (poll (hold_samples 0 (every 20 20 124) 2500 [2520]) (boot adc_12v None)))
  = [TriggerFullTest]
  /\ entered (effects (poll (hold_samples 0 (every 20 20 49) 1000 [1020]) (boot adc_12v None)))
     = [TriggerTest]
  /\ entered (effects (poll (hold_samples 0 (every 20 20 100) 2020 [2040]) (boot adc_12v None)))
     = [].
Proof.
  split; [| split].
  - apply (proj1 (action_button_hold (boot adc_12v None) 0 (every 20 20 124) 2500 [2520]
                    eq_refl eq_refl)).
    apply List.Exists_exists. exists 2020. split; [| unfold LONG_PRESS_MS; lia].
    assert (H : existsb (Z.eqb 2020) (every 20 20 124) = true) by (vm_compute; reflexivity).
    apply existsb_exists in H.
    destruct H as (t & Hin & Ht). apply Z.eqb_eq in Ht. subst t. exact Hin.
  - apply (proj1 (proj2 (action_button_hold (boot adc_12v None) 0 (every 20 20 49) 1000 [1020]
                           eq_refl eq_refl))).
    + apply List.Forall_forall. intros t Hin. apply Z.leb_le.
      revert t Hin. apply forallb_forall. vm_compute. reflexivity.
    + unfold LONG_PRESS_MS. lia.
  - apply (proj2 (proj2 (action_button_hold (boot adc_12v None) 0 (every 20 20 100) 2020 [2040]
                           eq_refl eq_refl))).
    + apply List.Forall_forall. intros t Hin. apply Z.leb_le.
      revert t Hin. apply forallb_forall. vm_compute. reflexivity.
    + unfold LONG_PRESS_MS. lia.
Defined.

(** C6 as stated fails for a hold that ends between two polls around
    the threshold: pressed at 0 and polled every 20 ms, the button is
    seen held at 2000 ms (not more than 2000 ms) and released at
    2020 ms (not less than 2000 ms). The hold exceeded the threshold,
    yet neither handler is called: no LongPressed and no Pressed. *)
Lemma hold_ending_between_polls_emits_nothing :
  2020 - 0 > LONG_PRESS_MS
  /\ result (poll (hold_samples 0 (every 20 20 100) 2020 [2040]) (boot adc_12v None)) = Ok tt
  /\ entered (effects (poll (hold_samples 0 (every 20 20 100) 2020 [2040]) (boot adc_12v None)))
     = [].
Proof.
  split; [unfold LONG_PRESS_MS; lia |].
  split; vm_compute; reflexivity.
Qed.

(** * Further properties of the code *)

(** ** The fault counters and the trend of the history *)

Lemma count_fault_lookup (counts : gmap string Z) f k :
  default 0 (count_fault counts f !! k)
  = default 0 (counts !! k) + (if named k f then 1 else 0).
Proof.
  unfold count_fault, named.
  destruct (String.eqb_spec (name f) k) as [-> | Hne].
  - rewrite lookup_insert_eq. destruct (counts !! k) eqn:Hk; cbn.
    + rewrite Hk. reflexivity.
    + rewrite lookup_insert_eq. reflexivity.
  - rewrite lookup_insert_ne by exact Hne.
    destruct (counts !! name f); [| rewrite lookup_insert_ne by exact Hne]; lia.
Qed.

Lemma fold_count_fault_lookup faults (counts : gmap string Z) k :
  default 0 (fold_left count_fault faults counts !! k)
  = default 0 (counts !! k) + Z.of_nat (length (List.filter (named k) faults)).
Proof.
  revert counts. induction faults as [| f rest IH]; intros counts; cbn [fold_left List.filter].
  - cbn. lia.
  - rewrite IH, count_fault_lookup. destruct (named k f); cbn [length]; lia.
Qed.

Lemma fault_counts_add_all (cap : Z) (adds : list entry) (k : string) :
  default 0 (fault_counts (add_all (new_history cap) adds) !! k)
  = Z.of_nat (length (List.filter (named k) (flat_map entry_faults adds))).
Proof.
  induction adds as [| e adds IH] using rev_ind.
  - reflexivity.
  - unfold add_all in *. rewrite fold_left_app. cbn [fold_left].
    unfold add_reading at 1. cbn [fault_counts].
    rewrite fold_count_fault_lookup, IH, flat_map_app, List.filter_app, length_app.
    cbn [flat_map]. rewrite app_nil_r. lia.
Qed.

Lemma filter_none {A : Type} (p : A -> bool) (l : list A) :
  (forall x, In x l -> p x = false) -> List.filter p l = [].
Proof.
  induction l as [| x rest IH]; intros Hall; cbn [List.filter]; [reflexivity |].
  rewrite (Hall x (or_introl eq_refl)). apply IH. intros y Hy. apply Hall. now right.
Qed.

Lemma flat_map_drop_filter_length {A B : Type} (p : B -> bool) (g : A -> list B) n (l : list A) :
  (length (List.filter p (flat_map g (drop n l))) <= length (List.filter p (flat_map g l)))%nat.
Proof.
  revert n. induction l as [| x rest IH]; intros [| n]; cbn [drop flat_map]; try lia.
  rewrite List.filter_app, length_app. specialize (IH n). lia.
Qed.

Lemma stored_findings_step h ts r faults k :
  (length (List.filter (named k) (flat_map entry_faults (history (add_reading h ts r faults))))
   <= length (List.filter (named k) (flat_map entry_faults (history h)))
      + length (List.filter (named k) faults))%nat.
Proof.
  assert (Hall : length (List.filter (named k)
                           (flat_map entry_faults (history h ++ [mkEntry ts r faults])))
                 = (length (List.filter (named k) (flat_map entry_faults (history h)))
                    + length (List.filter (named k) faults))%nat).
  { rewrite flat_map_app, List.filter_app, length_app. cbn [flat_map entry_faults].
    rewrite app_nil_r. reflexivity. }
  unfold add_reading. cbn [history].
  destruct (_ >? _); [| lia].
  rewrite pop_first_drop, <- Hall. apply flat_map_drop_filter_length.
Qed.

(** The counter of a fault name in a history built by [add_reading]
    calls is the number of findings of that name in all the readings
    ever added, whatever the capacity: evicting an entry takes nothing
    off it, so it is never below the number of such findings in the
    stored entries. *)
Theorem fault_counts_total (cap : Z) (adds : list entry) (k : string) :
  default 0 (fault_counts (add_all (new_history cap) adds) !! k)
  = Z.of_nat (length (List.filter (named k) (flat_map entry_faults adds)))
  /\ Z.of_nat (length (List.filter (named k)
                         (flat_map entry_faults (history (add_all (new_history cap) adds)))))
     <= default 0 (fault_counts (add_all (new_history cap) adds) !! k).
Proof.
  split; [apply fault_counts_add_all |].
  rewrite fault_counts_add_all. apply inj_le.
  induction adds as [| e adds IH] using rev_ind; [cbn; lia |].
  rewrite add_all_snoc.
  pose proof (stored_findings_step (add_all (new_history cap) adds)
                (timestamp e) (entry_readings e) (entry_faults e) k) as Hstep.
  rewrite flat_map_app, List.filter_app, length_app. cbn [flat_map].
  rewrite app_nil_r. lia.
Qed.

(** 0 / y compares below nothing that 0 does not. *)
Lemma zero_quotient_not_above (c y : float) :
  (c <? (0 / y))%float = true -> (c <? 0)%float = true.
Proof.
  rewrite !FloatAxioms.ltb_spec, FloatAxioms.div_spec.
  replace (Prim2SF 0) with (S754_zero false) by reflexivity.
  destruct (Prim2SF y) as [sy | sy | | sy my ey]; cbn.
  - unfold SFltb. destruct (Prim2SF c); cbn; discriminate.
  - unfold SFltb. destruct (Prim2SF c) as [| [] | | [] ? ?], sy; cbn; congruence.
  - unfold SFltb. destruct (Prim2SF c); cbn; discriminate.
  - unfold SFltb. destruct (Prim2SF c) as [| [] | | [] ? ?], sy; cbn; congruence.
Qed.

(** A fault that no added reading ever carried is never reported as
    intermittent, for any capacity, any number of readings and any
    threshold argument. *)
Theorem unrecorded_fault_never_intermittent
    (cap : Z) (adds : list entry) (k : string) (threshold : float) :
  (forall e f, In e adds -> In f (entry_faults e) -> name f <> k) ->
  detect_intermittent_fault (add_all (new_history cap) adds) k threshold = false.
Proof.
  intros Hnever. unfold detect_intermittent_fault.
  destruct (Z.of_nat (length (history (add_all (new_history cap) adds))) <? 10); [reflexivity |].
  rewrite fault_counts_add_all.
  assert (Hnone : List.filter (named k) (flat_map entry_faults adds) = []).
  { apply filter_none. intros f Hin. apply in_flat_map in Hin.
    destruct Hin as (e & He & Hf). unfold named.
    destruct (String.eqb_spec (name f) k) as [Heq | _]; [| reflexivity].
    exfalso. exact (Hnever e f He Hf Heq). }
  rewrite Hnone. change (Z.of_nat (length (@nil FaultPattern))) with 0.
  unfold int_true_div. change (of_uint63 (Uint63.of_Z 0)) with 0%float.
  match goal with
  | |- context [(0.1 <? 0 / ?y)%float] =>
      destruct (0.1 <? 0 / y)%float eqn:Habove; [| reflexivity]
  end.
  apply zero_quotient_not_above in Habove. vm_compute in Habove. discriminate.
Qed.

(** Ten samples with voltage drops only, asked about a ground fault. *)
Lemma unrecorded_fault_never_intermittent_witness :
  detect_intermittent_fault
    (add_all (new_history default_max_history) ten_samples_one_faulty)
    "GROUND_FAULT" default_threshold = false.
Proof.
  apply (unrecorded_fault_never_intermittent
           default_max_history ten_samples_one_faulty "GROUND_FAULT" default_threshold).
  assert (H : forallb (fun e => forallb (fun f => negb (named "GROUND_FAULT" f)) (entry_faults e))
                      ten_samples_one_faulty = true) by (vm_compute; reflexivity).
  intros e f He Hf Hname.
  rewrite List.forallb_forall in H. specialize (H e He).
  rewrite List.forallb_forall in H. specialize (H f Hf).
  unfold named in H. rewrite Hname in H. vm_compute in H. discriminate H.
Defined.

Lemma length_last_n {A : Type} (n : nat) (l : list A) :
  length (last_n n l) = Nat.min (length l) n.
Proof. unfold last_n. rewrite length_drop. lia. Qed.

(** [get_trend] looks at the last ten stored entries only: two
    histories of five entries or more that agree on them get the same
    answer, and with five entries or more the answer is one of the
    three trend names, never [None]. *)
Theorem get_trend_window (self other : DiagnosticHistory) (channel : string) :
  5 <= Z.of_nat (length (history self)) ->
  5 <= Z.of_nat (length (history other)) ->
  last_n 10 (history other) = last_n 10 (history self) ->
  get_trend other channel = get_trend self channel
  /\ (get_trend self channel = Some "stable"
      \/ get_trend self channel = Some "improving"
      \/ get_trend self channel = Some "degrading").
Proof.
  intros Hself Hother Hsame. unfold get_trend. rewrite Hsame.
  destruct (Z.ltb_spec (Z.of_nat (length (history self))) 5); [lia |].
  destruct (Z.ltb_spec (Z.of_nat (length (history other))) 5); [lia |].
  rewrite length_map, length_last_n.
  destruct (Z.ltb_spec (Z.of_nat (Nat.min (length (history self)) 10)) 5); [lia |].
  split; [reflexivity |].
  destruct (abs _ <? 0.5)%float; [now left |].
  destruct (0 <? _)%float; [right; now left | right; now right].
Qed.

(** A history of ten clean samples, and one of capacity ten that saw
    five faulty samples before the same ten. *)
Lemma get_trend_window_witness :
  get_trend (add_all (new_history 10) five_faulty_then_ten_clean) "brake"
  = get_trend (add_all (new_history default_max_history) ten_clean) "brake"
  /\ (get_trend (add_all (new_history default_max_history) ten_clean) "brake" = Some "stable"
      \/ get_trend (add_all (new_history default_max_history) ten_clean) "brake"
         = Some "improving"
      \/ get_trend (add_all (new_history default_max_history) ten_clean) "brake"
         = Some "degrading").
Proof.
  apply (get_trend_window (add_all (new_history default_max_history) ten_clean)
                          (add_all (new_history 10) five_faulty_then_ten_clean) "brake").
  - vm_compute. discriminate.
  - vm_compute. discriminate.
  - vm_compute. reflexivity.
Defined.

Lemma dict_get_absent {V : Type} (d : list (string * V)) k (def : V) :
  ~ In k (map fst d) -> dict_get d k def = def.
Proof.
  induction d as [| [k' v] rest IH]; cbn [dict_get map fst In]; [reflexivity |].
  intros Hnot. destruct (String.eqb_spec k' k) as [-> | _].
  - exfalso. apply Hnot. now left.
  - apply IH. intros Hin. apply Hnot. now right.
Qed.

(** A channel that no stored reading mentions is read as 0 throughout
    and its trend is "stable". *)
Theorem get_trend_absent_channel (self : DiagnosticHistory) (channel : string) :
  5 <= Z.of_nat (length (history self)) ->
  Forall (fun e => ~ In channel (map fst (entry_readings e))) (history self) ->
  get_trend self channel = Some "stable".
Proof.
  intros Hlen Habsent. unfold get_trend.
  destruct (Z.ltb_spec (Z.of_nat (length (history self))) 5); [lia |].
  assert (Hrecent :
            map (fun h => dict_get (entry_readings h) channel 0%float) (last_n 10 (history self))
            = replicate (Nat.min (length (history self)) 10) 0%float).
  { rewrite <- length_last_n.
    assert (Hall : Forall (fun e => ~ In channel (map fst (entry_readings e)))
                          (last_n 10 (history self))).
    { apply List.Forall_forall. intros e Hin. rewrite List.Forall_forall in Habsent.
      apply Habsent. unfold last_n in Hin. apply list_elem_of_In in Hin.
      apply list_elem_of_In. exact (subseteq_drop _ _ _ Hin). }
    induction Hall as [| e rest He _ IH]; [reflexivity |].
    cbn [map length replicate]. rewrite (dict_get_absent _ _ _ He), IH. reflexivity. }
  rewrite Hrecent.
  assert (Hn : (5 <= Nat.min (length (history self)) 10 <= 10)%nat) by lia.
  destruct (Nat.min (length (history self)) 10) as [| [| [| [| [| [| [| [| [| [| [| n]]]]]]]]]]];
    try lia; vm_compute; reflexivity.
Qed.

(** Ten samples of brake and tail, asked about the reverse channel. *)
Lemma get_trend_absent_channel_witness :
  get_trend (add_all (new_history default_max_history) ten_clean) "reverse" = Some "stable".
Proof.
  apply (get_trend_absent_channel
           (add_all (new_history default_max_history) ten_clean) "reverse").
  - vm_compute. discriminate.
  - assert (H : forallb (fun e => negb (existsb (String.eqb "reverse")
                                          (map fst (entry_readings e))))
                        (history (add_all (new_history default_max_history) ten_clean)) = true)
      by (vm_compute; reflexivity).
    apply List.Forall_forall. intros e He Hin.
    rewrite List.forallb_forall in H. specialize (H e He).
    apply negb_true_iff in H.
    assert (Hex : existsb (String.eqb "reverse") (map fst (entry_readings e)) = true).
    { apply List.existsb_exists. exists "reverse". split; [exact Hin | apply String.eqb_refl]. }
    rewrite Hex in H. discriminate H.
Defined.

(** ** What the whole-snapshot detectors need *)

Lemma check_channel_name f item :
  In f (check_channel [] item) -> name f = "VOLTAGE_DROP" \/ name f = "WEAK_SIGNAL".
Proof.
  destruct item as [c v]. intros Hin. apply check_channel_inv in Hin.
  destruct Hin as [_ [[-> _] | [-> _]]]; [left | right]; reflexivity.
Qed.

(** [analyze_readings] reports a possible cross-wire only when both the
    left and the right channel read above the active threshold; a
    snapshot without one of them reads it as 0. *)
Theorem cross_wire_needs_both_sides (r : readings) (f : FaultPattern) :
  is_active (dict_get r "left" 0%float) = false
  \/ is_active (dict_get r "right" 0%float) = false ->
  In f (analyze_readings r) -> name f <> "POSSIBLE_CROSS_WIRE".
Proof.
  intros Hside Hin Hname.
  apply in_analyze_readings, in_encountered_faults in Hin.
  destruct Hin as [(item & _ & Hf) | [Hcross | Hground]].
  - apply check_channel_name in Hf. rewrite Hname in Hf. destruct Hf; discriminate.
  - unfold _detect_cross_wiring in Hcross. unfold is_active in Hside.
    destruct Hside as [Hoff | Hoff]; rewrite Hoff in Hcross;
      [| rewrite andb_false_r in Hcross]; discriminate.
  - apply ground_fault_name in Hground. rewrite Hname in Hground. discriminate.
Qed.

(** Left turn on, no right channel in the snapshot. *)
Lemma cross_wire_needs_both_sides_witness :
  name (_diagnose_voltage_drop "brake" 7.0%float) <> "POSSIBLE_CROSS_WIRE".
Proof.
  apply (cross_wire_needs_both_sides left_on_brake_sagging
           (_diagnose_voltage_drop "brake" 7.0%float)).
  - right. vm_compute. reflexivity.
  - vm_compute. left. reflexivity.
Defined.

(** [analyze_readings] reports a ground fault only when three channels
    or more read above the active threshold. *)
Theorem ground_fault_needs_three_active (r : readings) (f : FaultPattern) :
  (length (List.filter is_active (dict_values r)) < 3)%nat ->
  In f (analyze_readings r) -> name f <> "GROUND_FAULT".
Proof.
  intros Hfew Hin Hname.
  apply in_analyze_readings, in_encountered_faults in Hin.
  destruct Hin as [(item & _ & Hf) | [Hcross | Hground]].
  - apply check_channel_name in Hf. rewrite Hname in Hf. destruct Hf; discriminate.
  - apply cross_wiring_name in Hcross. rewrite Hname in Hcross. discriminate.
  - unfold _detect_ground_fault in Hground.
    change (fun v => (ACTIVE_THRESHOLD <? v)%float) with is_active in Hground.
    destruct (Z.leb_spec 3 (Z.of_nat (length (List.filter is_active (dict_values r)))));
      [lia | discriminate].
Qed.

(** Two sagging channels are two active channels. *)
Lemma ground_fault_needs_three_active_witness :
  name (_diagnose_voltage_drop "tail" 7.0%float) <> "GROUND_FAULT".
Proof.
  apply (ground_fault_needs_three_active two_drops (_diagnose_voltage_drop "tail" 7.0%float)).
  - vm_compute. lia.
  - vm_compute. right. left. reflexivity.
Defined.

Lemma check_channel_length item : (length (check_channel [] item) <= 1)%nat.
Proof.
  destruct item as [c v]. unfold check_channel.
  destruct (_ <? _)%float; [| cbn; lia].
  destruct (_is_voltage_drop v); [cbn; lia |].
  destruct (_is_weak_signal v); cbn; lia.
Qed.

Lemma flat_map_check_channel_length (r : readings) :
  (length (flat_map (check_channel []) r) <= length r)%nat.
Proof.
  induction r as [| item rest IH]; cbn [flat_map length]; [lia |].
  rewrite length_app. pose proof (check_channel_length item). lia.
Qed.

Lemma append_if_found_length l o : (length (append_if_found l o) <= length l + 1)%nat.
Proof. destruct o; cbn [append_if_found]; [rewrite length_app; cbn |]; lia. Qed.

(** [analyze_readings] returns at most one finding per channel read and
    two for the whole snapshot, each with one of the four confidence
    scores the module assigns. *)
Theorem analyze_readings_bounded (r : readings) :
  (length (analyze_readings r) <= length r + 2)%nat
  /\ Forall (fun f => In (confidence f) [60; 70; 85; 90]) (analyze_readings r).
Proof.
  split.
  - unfold analyze_readings.
    rewrite (Permutation_length (sort_by_confidence_perm (encountered_faults r))).
    unfold encountered_faults. rewrite fold_check_channel, app_nil_l.
    pose proof (flat_map_check_channel_length r).
    pose proof (append_if_found_length (flat_map (check_channel []) r) (_detect_cross_wiring r)).
    pose proof (append_if_found_length
                  (append_if_found (flat_map (check_channel []) r) (_detect_cross_wiring r))
                  (_detect_ground_fault r)).
    lia.
  - apply List.Forall_forall. intros f Hin.
    apply in_analyze_readings, in_encountered_faults in Hin.
    destruct Hin as [([c v] & _ & Hf) | [Hcross | Hground]].
    + apply check_channel_inv in Hf. destruct Hf as [_ [[-> _] | [-> _]]]; cbn; tauto.
    + unfold _detect_cross_wiring in Hcross.
      destruct (_ && _); [| discriminate]. destruct (_ <? _)%float; [| discriminate].
      injection Hcross as <-. cbn; tauto.
    + unfold _detect_ground_fault in Hground.
      destruct (3 <=? _); [| discriminate]. destruct (_ <? _)%float; [| discriminate].
      injection Hground as <-. cbn; tauto.
Qed.

(** ** The relay manager *)

Lemma in_range_guard (rm : Relay.RelayManager) idx :
  length (Relay.relays rm) = 6%nat -> 0 <= idx <= 5 ->
  negb ((0 <=? idx) && (idx <? Z.of_nat (length (Relay.relays rm)))) = false.
Proof.
  intros -> H.
  destruct (Z.leb_spec 0 idx); [| lia]. destruct (Z.ltb_spec idx (Z.of_nat 6)); [reflexivity | lia].
Qed.

(** After [set_channel] on a valid index, [get_channel] answers the
    state just set there and what it answered before everywhere else;
    the pins hold what the manager tracks. *)
Theorem set_channel_then_get (rm : Relay.RelayManager) (idx : Z) (state : bool) (other : Z) :
  consistent rm -> 0 <= idx <= 5 ->
  let rm' := fst (Relay.set_channel rm idx state) in
  Relay.get_channel rm' idx = state
  /\ (other <> idx -> Relay.get_channel rm' other = Relay.get_channel rm other)
  /\ consistent rm'
  /\ gpio_after (Relay.relays rm) (snd (Relay.set_channel rm idx state)) = Relay.relays rm'.
Proof.
  intros [Hr Hs] Hidx. unfold Relay.set_channel.
  rewrite (in_range_guard rm idx Hr Hidx). cbn [fst snd].
  repeat apply conj.
  - unfold Relay.get_channel. cbn [Relay.relays Relay.states].
    rewrite length_insert, (in_range_guard rm idx Hr Hidx).
    apply nth_lookup_Some with (d := false). apply list_lookup_insert_eq. lia.
  - intros Hne. unfold Relay.get_channel. cbn [Relay.relays Relay.states].
    rewrite length_insert.
    destruct (Z.leb_spec 0 other); cbn [andb negb]; [| reflexivity].
    destruct (Z.ltb_spec other (Z.of_nat (length (Relay.relays rm)))); cbn [negb]; [| reflexivity].
    rewrite !nth_lookup, list_lookup_insert_ne by lia. reflexivity.
  - cbn [Relay.relays]. now rewrite length_insert.
  - cbn [Relay.states]. now rewrite length_insert.
  - reflexivity.
Qed.

(** Relay 2 energized on the manager as constructed; relay 3 is left
    as it was. *)
Lemma set_channel_then_get_witness :
  Relay.get_channel (fst (Relay.set_channel Relay.new_relay_manager 2 true)) 2 = true
  /\ Relay.get_channel (fst (Relay.set_channel Relay.new_relay_manager 2 true)) 3
     = Relay.get_channel Relay.new_relay_manager 3.
Proof.
  pose proof (set_channel_then_get Relay.new_relay_manager 2 true 3
                (conj eq_refl eq_refl) ltac:(lia))
    as H.
  cbv zeta in H. destruct H as (Hset & Hother & _).
  split; [exact Hset | apply Hother; discriminate].
Defined.

Lemma insert_fold_lookup (v : bool) n a (l : list bool) j :
  fold_left (fun acc idx => <[idx := v]> acc) (seq a n) l !! j
  = if decide ((a <= j < a + n)%nat /\ (j < length l)%nat) then Some v else l !! j.
Proof.
  revert a l. induction n as [| n IH]; intros a l; cbn [seq fold_left].
  - rewrite decide_False by lia. reflexivity.
  - rewrite IH, length_insert. destruct (decide (j = a)) as [-> | Hne].
    + rewrite (decide_False (P := (S a <= a < S a + n)%nat /\ (a < length l)%nat)) by lia.
      destruct (decide (a < length l)%nat) as [Hlt | Hge].
      * rewrite list_lookup_insert_eq by lia. rewrite decide_True by lia. reflexivity.
      * rewrite list_insert_ge by lia. rewrite decide_False by lia. reflexivity.
    + rewrite list_lookup_insert_ne by lia.
      destruct (decide ((S a <= j < S a + n)%nat /\ (j < length l)%nat));
        [rewrite decide_True by lia | rewrite decide_False by lia]; reflexivity.
Qed.

Lemma insert_fold_all (v : bool) (l : list bool) n :
  (length l <= n)%nat ->
  fold_left (fun acc idx => <[idx := v]> acc) (seq 0 n) l = replicate (length l) v.
Proof.
  intros Hn. apply list_eq. intros j. rewrite insert_fold_lookup.
  destruct (decide (j < length l)%nat) as [Hlt | Hge].
  - rewrite decide_True by lia. symmetry. apply lookup_replicate_2. exact Hlt.
  - rewrite decide_False by lia.
    rewrite lookup_ge_None_2 by lia. symmetry. apply lookup_ge_None_2.
    rewrite length_replicate. lia.
Qed.

Lemma fold_both (v : bool) idxs rm :
  fold_left (fun rm idx => {| Relay.relays := <[idx := v]> (Relay.relays rm);
                              Relay.states := <[idx := v]> (Relay.states rm) |}) idxs rm
  = {| Relay.relays := fold_left (fun acc idx => <[idx := v]> acc) idxs (Relay.relays rm);
       Relay.states := fold_left (fun acc idx => <[idx := v]> acc) idxs (Relay.states rm) |}.
Proof.
  revert rm. induction idxs as [| i rest IH]; intros [rl st]; cbn [fold_left]; [reflexivity |].
  rewrite IH. reflexivity.
Qed.

Lemma gpio_after_writes (v : bool) idxs (l : list bool) :
  gpio_after l (map (fun idx => GpioWrite idx v) idxs)
  = fold_left (fun acc idx => <[idx := v]> acc) idxs l.
Proof.
  unfold gpio_after. revert l. induction idxs as [| i rest IH]; intros l; cbn [map fold_left];
    [reflexivity | apply IH].
Qed.

Lemma active_from_all_off n idx : Relay.active_from idx (replicate n false) = Some [].
Proof. revert idx. induction n as [| n IH]; intros idx; cbn; [reflexivity | apply IH]. Qed.

Lemma all_off_manager (rm : Relay.RelayManager) :
  length (Relay.states rm) = length (Relay.relays rm) ->
  fst (Relay.all_off rm)
  = {| Relay.relays := replicate (length (Relay.relays rm)) false;
       Relay.states := replicate (length (Relay.relays rm)) false |}.
Proof.
  intros Hlen. unfold Relay.all_off. cbn [fst]. rewrite fold_both.
  rewrite (insert_fold_all false (Relay.relays rm)) by lia.
  rewrite (insert_fold_all false (Relay.states rm)) by lia.
  rewrite Hlen. reflexivity.
Qed.

Lemma all_on_manager (rm : Relay.RelayManager) :
  length (Relay.states rm) = length (Relay.relays rm) ->
  fst (Relay.all_on rm)
  = {| Relay.relays := replicate (length (Relay.relays rm)) true;
       Relay.states := replicate (length (Relay.relays rm)) true |}.
Proof.
  intros Hlen. unfold Relay.all_on. cbn [fst]. rewrite fold_both.
  rewrite (insert_fold_all true (Relay.relays rm)) by lia.
  rewrite (insert_fold_all true (Relay.states rm)) by lia.
  rewrite Hlen. reflexivity.
Qed.

(** [all_off] de-energizes every relay whatever the manager held: every
    pin and every tracked state is off, [get_channel] answers False for
    every index and no channel is reported active. *)
Theorem all_off_de_energizes (rm : Relay.RelayManager) :
  length (Relay.states rm) = length (Relay.relays rm) ->
  let rm' := fst (Relay.all_off rm) in
  Relay.relays rm' = replicate (length (Relay.relays rm)) false
  /\ Relay.states rm' = replicate (length (Relay.relays rm)) false
  /\ (forall idx, Relay.get_channel rm' idx = false)
  /\ Relay.get_active_channels rm' = Some []
  /\ gpio_after (Relay.relays rm) (snd (Relay.all_off rm)) = Relay.relays rm'.
Proof.
  intros Hlen. cbv zeta. rewrite (all_off_manager rm Hlen). cbn [Relay.relays Relay.states].
  repeat apply conj; try reflexivity.
  - intros idx. unfold Relay.get_channel. cbn [Relay.relays Relay.states].
    destruct (negb _); [reflexivity |].
    destruct (nth_in_or_default (Z.to_nat idx) (replicate (length (Relay.relays rm)) false) false)
      as [Hin | ->]; [| reflexivity].
    apply list_elem_of_In, elem_of_replicate in Hin. tauto.
  - apply active_from_all_off.
  - unfold Relay.all_off. cbn [snd]. unfold gpio_after. cbn [fold_left gpio_step].
    change (fold_left gpio_step ?tr ?l) with (gpio_after l tr).
    rewrite gpio_after_writes. apply insert_fold_all. lia.
Qed.

(** [all_off] on a manager with relay 2 energized. *)
Lemma all_off_de_energizes_witness :
  Relay.get_active_channels
    (fst (Relay.all_off (fst (Relay.set_channel Relay.new_relay_manager 2 true))))
  = Some [].
Proof.
  pose proof (all_off_de_energizes (fst (Relay.set_channel Relay.new_relay_manager 2 true))
                eq_refl) as H.
  cbv zeta in H. destruct H as (_ & _ & _ & Hactive & _). exact Hactive.
Defined.

(** [all_on] energizes all six relays, [get_active_channels] then names
    the six channels in order, and [all_off] afterwards gives the
    manager as constructed. *)
Theorem all_on_energizes_all (rm : Relay.RelayManager) :
  consistent rm ->
  Relay.states (fst (Relay.all_on rm)) = replicate 6 true
  /\ Relay.relays (fst (Relay.all_on rm)) = replicate 6 true
  /\ gpio_after (Relay.relays rm) (snd (Relay.all_on rm)) = replicate 6 true
  /\ Relay.get_active_channels (fst (Relay.all_on rm)) = Some Relay.CHANNEL_NAMES
  /\ fst (Relay.all_off (fst (Relay.all_on rm))) = Relay.new_relay_manager.
Proof.
  intros [Hr Hs].
  assert (Hlen : length (Relay.states rm) = length (Relay.relays rm)) by congruence.
  assert (Hwrites : gpio_after (Relay.relays rm) (snd (Relay.all_on rm)) = replicate 6 true).
  { unfold Relay.all_on. cbn [snd]. unfold gpio_after. cbn [fold_left gpio_step].
    change (fold_left gpio_step ?tr ?l) with (gpio_after l tr).
    rewrite gpio_after_writes, insert_fold_all by lia. now rewrite Hr. }
  rewrite Hwrites, (all_on_manager rm Hlen), Hr. cbn [Relay.relays Relay.states].
  repeat apply conj; reflexivity.
Qed.

(** [all_on] on the manager as constructed. *)
Lemma all_on_energizes_all_witness :
  Relay.get_active_channels (fst (Relay.all_on Relay.new_relay_manager))
  = Some Relay.CHANNEL_NAMES.
Proof.
  destruct (all_on_energizes_all Relay.new_relay_manager (conj eq_refl eq_refl))
    as (_ & _ & _ & Hactive & _).
  exact Hactive.
Defined.

Lemma toggle_in_range rm idx :
  consistent rm -> 0 <= idx <= 5 ->
  Relay.toggle_channel rm idx
  = ({| Relay.relays :=
          <[Z.to_nat idx := negb (nth (Z.to_nat idx) (Relay.states rm) false)]> (Relay.relays rm);
        Relay.states :=
          <[Z.to_nat idx := negb (nth (Z.to_nat idx) (Relay.states rm) false)]> (Relay.states rm) |},
     negb (nth (Z.to_nat idx) (Relay.states rm) false),
     snd (Relay.set_channel rm idx (negb (nth (Z.to_nat idx) (Relay.states rm) false)))).
Proof.
  intros [Hr Hs] Hidx. unfold Relay.toggle_channel, Relay.set_channel.
  rewrite (in_range_guard rm idx Hr Hidx). reflexivity.
Qed.

(** [toggle_channel] on a valid index returns the opposite of what
    [get_channel] answered, which is what [get_channel] answers
    afterwards; a second toggle returns the first answer and restores
    the tracked states. *)
Theorem toggle_channel_twice (rm : Relay.RelayManager) (idx : Z) :
  consistent rm -> 0 <= idx <= 5 ->
  toggle_result rm idx = negb (Relay.get_channel rm idx)
  /\ Relay.get_channel (toggled rm idx) idx = toggle_result rm idx
  /\ toggle_result (toggled rm idx) idx = Relay.get_channel rm idx
  /\ Relay.states (toggled (toggled rm idx) idx) = Relay.states rm.
Proof.
  intros Hc Hidx. pose proof Hc as [Hr Hs].
  assert (Hc1 : consistent (toggled rm idx)).
  { unfold toggled. rewrite (toggle_in_range rm idx Hc Hidx). cbn [fst].
    split; cbn [Relay.relays Relay.states]; rewrite length_insert; assumption. }
  assert (Hnth : nth (Z.to_nat idx) (Relay.states (toggled rm idx)) false
                 = negb (nth (Z.to_nat idx) (Relay.states rm) false)).
  { unfold toggled. rewrite (toggle_in_range rm idx Hc Hidx). cbn [fst Relay.states].
    apply nth_lookup_Some with (d := false). apply list_lookup_insert_eq. lia. }
  assert (Hget : forall r, consistent r ->
                   Relay.get_channel r idx = nth (Z.to_nat idx) (Relay.states r) false).
  { intros r [Hrr _]. unfold Relay.get_channel. rewrite (in_range_guard r idx Hrr Hidx).
    reflexivity. }
  repeat apply conj.
  - unfold toggle_result. rewrite (toggle_in_range rm idx Hc Hidx), (Hget rm Hc). reflexivity.
  - rewrite (Hget _ Hc1), Hnth. unfold toggle_result.
    rewrite (toggle_in_range rm idx Hc Hidx). reflexivity.
  - unfold toggle_result at 1. rewrite (toggle_in_range _ idx Hc1 Hidx). cbn [fst snd].
    rewrite Hnth, negb_involutive, (Hget rm Hc). reflexivity.
  - unfold toggled at 1. rewrite (toggle_in_range _ idx Hc1 Hidx). cbn [fst Relay.states].
    rewrite Hnth, negb_involutive.
    unfold toggled. rewrite (toggle_in_range rm idx Hc Hidx). cbn [fst Relay.states].
    rewrite list_insert_insert_eq. apply list_insert_id.
    destruct (Relay.states rm !! Z.to_nat idx) as [b |] eqn:Hlook.
    + rewrite (nth_lookup_Some _ _ false _ Hlook). reflexivity.
    + apply lookup_ge_None in Hlook. lia.
Qed.

(** Relay 4 toggled twice on the manager as constructed. *)
Lemma toggle_channel_twice_witness :
  toggle_result Relay.new_relay_manager 4 = true
  /\ Relay.states (toggled (toggled Relay.new_relay_manager 4) 4)
     = Relay.states Relay.new_relay_manager.
Proof.
  destruct (toggle_channel_twice Relay.new_relay_manager 4
              (conj eq_refl eq_refl) ltac:(lia))
    as (Hfirst & _ & _ & Hback).
  split; [exact Hfirst | exact Hback].
Defined.

Lemma set_pattern_fold (pattern : list bool) a (rm : Relay.RelayManager) events :
  length (Relay.states rm) = length (Relay.relays rm) ->
  let rm' :=
    fst (fold_left Relay.set_pattern_step (combine (seq a (length pattern)) pattern)
           (rm, events)) in
  length (Relay.relays rm') = length (Relay.relays rm)
  /\ length (Relay.states rm') = length (Relay.relays rm)
  /\ forall j,
       Relay.states rm' !! j
       = if decide ((a <= j < a + length pattern)%nat /\ (j < length (Relay.relays rm))%nat)
         then pattern !! (j - a)%nat
         else Relay.states rm !! j.
Proof.
  revert a rm events. induction pattern as [| state rest IH]; intros a rm events Hlen; cbv zeta.
  - cbn. repeat split; try assumption. intros j. rewrite decide_False by lia. reflexivity.
  - cbn [length seq combine fold_left].
    destruct (Nat.ltb_spec a (length (Relay.relays rm))) as [Hlt | Hge].
    + set (rm1 := {| Relay.relays := <[a := state]> (Relay.relays rm);
                     Relay.states := <[a := state]> (Relay.states rm) |}).
      assert (Hstep : Relay.set_pattern_step (rm, events) (a, state)
                      = (rm1, events ++ [GpioWrite a state])).
      { unfold Relay.set_pattern_step.
        destruct (Nat.ltb_spec a (length (Relay.relays rm))); [reflexivity | lia]. }
      rewrite Hstep.
      assert (Hlen1 : length (Relay.states rm1) = length (Relay.relays rm1))
        by (cbn [rm1 Relay.relays Relay.states]; rewrite !length_insert; exact Hlen).
      pose proof (IH (S a) rm1 (events ++ [GpioWrite a state]) Hlen1) as H1. cbv zeta in H1.
      destruct H1 as (Hr & Hs & Hlook).
      cbn [rm1 Relay.relays Relay.states] in Hr, Hs, Hlook.
      rewrite !length_insert in Hr, Hs, Hlook.
      repeat split; try assumption.
      intros j. rewrite Hlook. destruct (decide (j = a)) as [-> | Hne].
      * rewrite decide_False by lia. rewrite decide_True by lia.
        rewrite Nat.sub_diag. cbn. apply list_lookup_insert_eq. lia.
      * rewrite list_lookup_insert_ne by lia.
        destruct (decide ((S a <= j < S a + length rest)%nat
                          /\ (j < length (Relay.relays rm))%nat)).
        -- rewrite decide_True by lia. replace (j - a)%nat with (S (j - S a)) by lia.
           reflexivity.
        -- rewrite decide_False by lia. reflexivity.
    + assert (Hstep : Relay.set_pattern_step (rm, events) (a, state) = (rm, events)).
      { unfold Relay.set_pattern_step.
        destruct (Nat.ltb_spec a (length (Relay.relays rm))); [lia | reflexivity]. }
      rewrite Hstep.
      pose proof (IH (S a) rm events Hlen) as H1. cbv zeta in H1.
      destruct H1 as (Hr & Hs & Hlook). repeat split; try assumption.
      intros j. rewrite Hlook.
      rewrite decide_False by lia. rewrite decide_False by lia. reflexivity.
Qed.

(** [set_pattern] overwrites the first relays with the pattern and
    leaves the others as they were: a short pattern sets a prefix, the
    elements of a long one past the last relay are ignored, and the
    number of relays does not change. *)
Theorem set_pattern_prefix (rm : Relay.RelayManager) (pattern : list bool) :
  length (Relay.states rm) = length (Relay.relays rm) ->
  let rm' := fst (Relay.set_pattern rm pattern) in
  length (Relay.states rm') = length (Relay.states rm)
  /\ Relay.states rm'
     = take (length (Relay.states rm)) pattern ++ drop (length pattern) (Relay.states rm).
Proof.
  intros Hlen. cbv zeta. unfold Relay.set_pattern, Relay.enumerate.
  pose proof (set_pattern_fold pattern 0 rm [] Hlen) as Hfold. cbv zeta in Hfold.
  destruct (fold_left Relay.set_pattern_step (combine (seq 0 (length pattern)) pattern) (rm, []))
    as [rm1 ev1]. cbn [fst] in *. destruct Hfold as (Hr & Hs & Hlook).
  split; [lia |].
  apply list_eq. intros j. rewrite Hlook, Nat.sub_0_r.
  destruct (decide (j < length pattern)%nat) as [Hp | Hp];
    destruct (decide (j < length (Relay.relays rm))%nat) as [Hn | Hn].
  - rewrite decide_True by lia. rewrite lookup_app_l by (rewrite length_take; lia).
    rewrite lookup_take_lt by lia. reflexivity.
  - rewrite decide_False by lia.
    rewrite lookup_ge_None_2 by lia. symmetry. apply lookup_ge_None_2.
    rewrite length_app, length_take, length_drop. lia.
  - rewrite decide_False by lia.
    rewrite lookup_app_r by (rewrite length_take; lia).
    rewrite length_take, lookup_drop. f_equal. lia.
  - rewrite decide_False by lia.
    rewrite lookup_ge_None_2 by lia. symmetry. apply lookup_ge_None_2.
    rewrite length_app, length_take, length_drop. lia.
Qed.

(** A pattern of three on all six energized relays, and one of eight. *)
Lemma set_pattern_prefix_witness :
  Relay.states (fst (Relay.set_pattern (fst (Relay.all_on Relay.new_relay_manager))
                                       [false; true; false]))
  = [false; true; false; true; true; true]
  /\ Relay.states (fst (Relay.set_pattern Relay.new_relay_manager
                          [true; false; true; false; true; false; true; true]))
     = [true; false; true; false; true; false].
Proof.
  split.
  - pose proof (set_pattern_prefix (fst (Relay.all_on Relay.new_relay_manager))
                  [false; true; false] eq_refl) as H.
    cbv zeta in H. exact (proj2 H).
  - pose proof (set_pattern_prefix Relay.new_relay_manager
                  [true; false; true; false; true; false; true; true] eq_refl) as H.
    cbv zeta in H. exact (proj2 H).
Defined.

(** On a manager of six relays [get_active_channels] never fails, and a
    channel's name is in its answer exactly when [get_channel] answers
    True for the channel's index. *)
Theorem get_active_channels_agrees (rm : Relay.RelayManager) (idx : Z) :
  consistent rm -> 0 <= idx <= 5 ->
  exists active,
    Relay.get_active_channels rm = Some active
    /\ (In (nth (Z.to_nat idx) Relay.CHANNEL_NAMES "") active
        <-> Relay.get_channel rm idx = true).
Proof.
  intros [Hr Hs] Hidx.
  assert (Hget : Relay.get_channel rm idx = nth (Z.to_nat idx) (Relay.states rm) false).
  { unfold Relay.get_channel. rewrite (in_range_guard rm idx Hr Hidx). reflexivity. }
  rewrite Hget. unfold Relay.get_active_channels. clear Hget Hr.
  destruct rm as [rl st]. cbn [Relay.states] in *.
  destruct st as [| s0 [| s1 [| s2 [| s3 [| s4 [| s5 [| s6 st]]]]]]]; try discriminate Hs.
  assert (Hcase : Z.to_nat idx = 0%nat \/ Z.to_nat idx = 1%nat \/ Z.to_nat idx = 2%nat
                  \/ Z.to_nat idx = 3%nat \/ Z.to_nat idx = 4%nat \/ Z.to_nat idx = 5%nat)
    by lia.
  destruct Hcase as [-> | [-> | [-> | [-> | [-> | ->]]]]];
    destruct s0, s1, s2, s3, s4, s5; eexists; (split; [reflexivity |]);
    cbn [nth Relay.CHANNEL_NAMES In]; split;
    first [ intros _; reflexivity
          | intros _; tauto
          | intros Hfalse; discriminate Hfalse
          | intros Hin; exfalso; repeat (destruct Hin as [Hin | Hin]; try discriminate Hin);
            exact Hin ].
Qed.

(** The manager with relay 1 (tail) energized, asked about index 1. *)
Lemma get_active_channels_agrees_witness :
  exists active,
    Relay.get_active_channels (fst (Relay.set_channel Relay.new_relay_manager 1 true))
    = Some active
    /\ (In "tail" active
        <-> Relay.get_channel (fst (Relay.set_channel Relay.new_relay_manager 1 true)) 1 = true).
Proof.
  exact (get_active_channels_agrees (fst (Relay.set_channel Relay.new_relay_manager 1 true)) 1
           (conj eq_refl eq_refl) ltac:(lia)).
Defined.

(** ** More of the controller *)

(** A press of the mode button that comes within the debounce window
    of the last accepted one, or that is only the button still held, is
    ignored: with the action button released, the poll changes nothing
    but the remembered level of the mode button, touches no relay and
    enters no handler. *)
Theorem mode_press_ignored (m : machine) (x : sample) :
  test_level x = true -> test_button_last (app m) = true ->
  mode_level x = true
  \/ mode_button_last (app m) = false
  \/ clock x - _mode_press_time (app m) <= DEBOUNCE_MS ->
  check_buttons x m
  = mkRun (Ok tt)
          (mkMachine (with_test_button_last true (with_mode_button_last (mode_level x) (app m)))
                     (adc m) (interrupt_in m))
          [].
Proof.
  destruct m as [[md rn rm mb mt tb st tg] f i], x as [t ml tl].
  cbn [test_level test_button_last app mode_level mode_button_last clock _mode_press_time].
  intros -> -> Hquiet. unfold check_buttons, bind.
  cbn [clock mode_level test_level get_app result final effects app mode_button_last
       _mode_press_time].
  assert (Hno : (if negb ml && mb
                 then if t - mt >? DEBOUNCE_MS
                      then (_cycle_mode ;;
                            pixels (BlinkAll (255, 255, 255) 1 0.05%float 0.0%float) ;;
                            update_app (with_mode_press_time t))
                      else ret tt
                 else ret tt) = ret tt).
  { destruct Hquiet as [-> | [-> | Hwin]].
    - reflexivity.
    - rewrite andb_false_r. reflexivity.
    - destruct (negb ml && mb); [| reflexivity].
      destruct (Z.gtb_spec (t - mt) DEBOUNCE_MS); [lia | reflexivity]. }
  unfold bind in Hno. rewrite Hno. reflexivity.
Qed.

(** The booted tester, mode button down 30 ms after start-up. *)
Lemma mode_press_ignored_witness :
  check_buttons (mkSample 30 false true) (boot adc_12v None)
  = mkRun (Ok tt)
          (mkMachine (with_test_button_last true (with_mode_button_last false new_app))
                     adc_12v None)
          [].
Proof.
  apply (mode_press_ignored (boot adc_12v None) (mkSample 30 false true)).
  - reflexivity.
  - reflexivity.
  - right. right. unfold DEBOUNCE_MS. cbn. lia.
Defined.

Lemma relays_all_off_run (a : TrailerTester) f i :
  relays_all_off (mkMachine a f i)
  = mkRun (Ok tt) (mkMachine (with_relays (fst (Relay.all_off (relays a))) a) f i)
          (snd (Relay.all_off (relays a))).
Proof. reflexivity. Qed.

(** [shutdown] leaves every relay de-energized whatever state it is
    called in, also when its own half-second sleep is interrupted:
    [all_off] comes before the sleep. *)
Theorem shutdown_forces_relays_off (m : machine) :
  length (Relay.states (relays (app m))) = length (Relay.relays (relays (app m))) ->
  relays (app (final (shutdown m)))
  = {| Relay.relays := replicate (length (Relay.relays (relays (app m)))) false;
       Relay.states := replicate (length (Relay.relays (relays (app m)))) false |}
  /\ (interrupt_in m = None -> result (shutdown m) = Ok tt)
  /\ (interrupt_in m = Some 0%nat -> result (shutdown m) = Raise KeyboardInterrupt).
Proof.
  destruct m as [a f i]. cbn [app interrupt_in]. intros Hlen.
  rewrite <- (all_off_manager (relays a) Hlen).
  unfold shutdown, bind.
  cbn [log emit result final effects]. rewrite relays_all_off_run.
  cbn [result final effects pixels display emit].
  destruct i as [[| k] |]; cbn [time_sleep interrupt_in result final effects app adc];
    (split; [destruct a; reflexivity |]); split; intros H; try discriminate H; reflexivity.
Qed.

(** Shutdown of the tester left with the tail relay energized. *)
Lemma shutdown_forces_relays_off_witness :
  relays (app (final (shutdown tail_left_on))) = Relay.new_relay_manager
  /\ result (shutdown tail_left_on) = Ok tt.
Proof.
  destruct (shutdown_forces_relays_off tail_left_on eq_refl) as (Hoff & Hreturns & _).
  split; [exact Hoff | apply Hreturns; reflexivity].
Defined.

Lemma pixel_ops_app tr1 tr2 : pixel_ops (tr1 ++ tr2) = pixel_ops tr1 ++ pixel_ops tr2.
Proof. apply flat_map_app. Qed.

Lemma gpio_writes_app tr1 tr2 : gpio_writes (tr1 ++ tr2) = gpio_writes tr1 ++ gpio_writes tr2.
Proof. apply flat_map_app. Qed.

Lemma read_channels_leds items detailed r m :
  pixel_ops (effects (read_channels items detailed r m))
  = map (fun item => channel_led item (adc m (adc_board (snd item)) (adc_chan (snd item)))) items
  /\ gpio_writes (effects (read_channels items detailed r m)) = [].
Proof.
  revert r. induction items as [| [channel_name channel_info] rest IH]; intros r.
  - split; reflexivity.
  - cbn [read_channels map snd].
    set (v := adc m (adc_board channel_info) (adc_chan channel_info)).
    destruct (read_channels_run rest detailed (dict_set r channel_name v) m)
      as (tr & Hrun & _).
    specialize (IH (dict_set r channel_name v)). rewrite Hrun in IH. cbn [effects] in IH.
    destruct IH as [IHp IHg].
    assert (Hall : returns
              (do voltage <- adc_read_voltage (adc_board channel_info) (adc_chan channel_info);
               (if (3.0 <? voltage)%float
                then pixels (SetChannelActive (relay_idx channel_info + 1))
                else pixels (SetChannelIdle (relay_idx channel_info + 1))) ;;
               (if detailed
                then log "app" LogLevel.DEBUG ("{}: {:.2f}V", [FStr channel_name; FFloat 2 voltage])
                else ret tt) ;;
               read_channels rest detailed (dict_set r channel_name voltage))
              m
              (fold_left (fun acc item =>
                   dict_set acc (fst item) (adc m (adc_board (snd item)) (adc_chan (snd item))))
                 rest (dict_set r channel_name v))
              m
              ([AdcRead (adc_board channel_info) (adc_chan channel_info) v]
               ++ (if (3.0 <? v)%float
                   then [Pixels (SetChannelActive (relay_idx channel_info + 1))]
                   else [Pixels (SetChannelIdle (relay_idx channel_info + 1))])
               ++ (if detailed
                   then [Log "app" LogLevel.DEBUG ("{}: {:.2f}V", [FStr channel_name; FFloat 2 v])]
                   else [])
               ++ tr)).
    { eapply returns_bind; [reflexivity |].
      eapply returns_bind; [apply returns_if; reflexivity |].
      eapply returns_bind; [apply returns_if; reflexivity |].
      exact Hrun. }
    unfold returns in Hall. rewrite Hall. cbn [effects].
    rewrite !pixel_ops_app, !gpio_writes_app, IHp, IHg. unfold channel_led. cbn [snd].
    fold v. destruct (3.0 <? v)%float, detailed; split; reflexivity.
Qed.

Lemma read_all_channels_leds detailed m :
  pixel_ops (effects (_read_all_channels detailed m))
  = map (fun item => channel_led item (adc m (adc_board (snd item)) (adc_chan (snd item))))
        CHANNELS
  /\ gpio_writes (effects (_read_all_channels detailed m)) = [].
Proof.
  destruct (read_channels_leds CHANNELS detailed [] m) as [Hp Hg].
  destruct (read_channels_run CHANNELS detailed [] m) as (tr0 & Hrun0 & _).
  assert (Hall : returns (_read_all_channels detailed) m
                   [("brake", adc m 0 0); ("tail", adc m 0 1); ("left", adc m 0 2);
                    ("right", adc m 0 3); ("aux", adc m 1 0); ("reverse", adc m 1 1)] m
                   (tr0 ++ [Display (ShowVoltageReadings
                              [("brake", adc m 0 0); ("tail", adc m 0 1); ("left", adc m 0 2);
                               ("right", adc m 0 3); ("aux", adc m 1 0); ("reverse", adc m 1 1)])]
                        ++ [])).
  { unfold _read_all_channels. eapply returns_bind; [exact Hrun0 |].
    eapply returns_bind; reflexivity. }
  unfold returns in Hrun0. rewrite Hrun0 in Hp, Hg. cbn [effects] in Hp, Hg.
  unfold returns in Hall. rewrite Hall. cbn [effects].
  rewrite !pixel_ops_app, !gpio_writes_app, Hp, Hg.
  split; [cbn [pixel_ops flat_map]; now rewrite !app_nil_r | reflexivity].
Qed.

(** [_read_all_channels] returns a reading for each of the six
    channels, in the order of CHANNELS, and changes nothing of the
    tester; it sets each channel's LED (index relay_idx + 1) bright
    when the channel reads above 3.0 V and dim otherwise, in that
    order, writes to no relay pin and enters no handler. *)
Theorem read_all_channels_effects (detailed : bool) (m : machine) :
  result (_read_all_channels detailed m)
  = Ok [("brake", adc m 0 0); ("tail", adc m 0 1); ("left", adc m 0 2);
        ("right", adc m 0 3); ("aux", adc m 1 0); ("reverse", adc m 1 1)]
  /\ final (_read_all_channels detailed m) = m
  /\ pixel_ops (effects (_read_all_channels detailed m))
     = map (fun item => channel_led item (adc m (adc_board (snd item)) (adc_chan (snd item))))
           CHANNELS
  /\ gpio_writes (effects (_read_all_channels detailed m)) = []
  /\ entered (effects (_read_all_channels detailed m)) = [].
Proof.
  destruct (read_all_channels_leds detailed m) as [Hp Hg].
  destruct (read_all_channels_run detailed m) as (tr & Hrun & _ & _ & Hent).
  unfold returns in Hrun. rewrite Hrun in Hp, Hg |- *. cbn [result final effects] in Hp, Hg |- *.
  repeat apply conj; first [reflexivity | assumption].
Qed.

Lemma sequence_run (a : TrailerTester) f :
  relays a = Relay.new_relay_manager ->
  returns _run_trailer_test_sequence (mkMachine a f None) tt (mkMachine a f None)
          sequence_effects.
Proof.
  destruct a as [md rn rl b1 t1 b2 t2 b3]. cbn [relays]. intros ->.
  unfold returns. vm_compute. reflexivity.
Qed.

(** An uninterrupted full test (long press) started with all relays
    de-energized returns with the tester as it found it. It pulses the
    six relays in the order of the trailer test sequence, each switched
    on and then off, in every mode, and reads the six channels, once
    and after the sequence, in VehicleTester mode only. *)
Theorem full_test_composition (m : machine) :
  relays (app m) = Relay.new_relay_manager ->
  interrupt_in m = None ->
  result (_trigger_full_test m) = Ok tt
  /\ final (_trigger_full_test m) = m
  /\ gpio_writes (effects (_trigger_full_test m))
     = [(1, true); (1, false); (2, true); (2, false); (3, true); (3, false);
        (0, true); (0, false); (5, true); (5, false); (4, true); (4, false)]%nat
  /\ adc_reads (effects (_trigger_full_test m))
     = (if current_mode (app m) =? TestMode.VEHICLE_TESTER
        then [(0, 0); (0, 1); (0, 2); (0, 3); (1, 0); (1, 1)] else []).
Proof.
  destruct m as [a f i]. cbn [app interrupt_in]. intros Hoff ->.
  destruct (read_all_channels_run true (mkMachine a f None)) as (tr & Hread & Hreads & _).
  assert (Hgw : gpio_writes tr = []).
  { pose proof (read_all_channels_leds true (mkMachine a f None)) as (_ & Hg).
    unfold returns in Hread. rewrite Hread in Hg. exact Hg. }
  assert (Hrun : exists tail_effects,
             returns _trigger_full_test (mkMachine a f None) tt (mkMachine a f None)
               ([Enter TriggerFullTest]
                ++ [Log "app" LogLevel.INFO ("Full system test triggered (long press detected)", [])]
                ++ [Pixels (BlinkAll (0, 255, 255) 3 0.1%float 0.1%float)]
                ++ [Display (ShowMessage "FULL TEST")]
                ++ [Sleep 1.0%float]
                ++ sequence_effects
                ++ []
                ++ tail_effects)
             /\ gpio_writes tail_effects = []
             /\ adc_reads tail_effects
                = (if current_mode a =? TestMode.VEHICLE_TESTER
                   then [(0, 0); (0, 1); (0, 2); (0, 3); (1, 0); (1, 1)] else [])).
  { destruct (current_mode a =? TestMode.VEHICLE_TESTER) eqn:Hmode.
    - eexists. split.
      + unfold _trigger_full_test.
        do 5 (eapply returns_bind; [reflexivity |]).
        eapply returns_bind; [apply sequence_run; exact Hoff |].
        eapply returns_bind; [reflexivity |]. cbn beta. cbn [app]. rewrite Hmode.
        eapply returns_bind.
        * eapply returns_bind; [reflexivity |].
          eapply returns_bind; [reflexivity |].
          eapply returns_bind; [reflexivity |].
          eapply returns_bind; [exact Hread | reflexivity].
        * eapply returns_bind; reflexivity.
      + rewrite !gpio_writes_app, !adc_reads_app, Hgw, Hreads. split; reflexivity.
    - eexists. split.
      + unfold _trigger_full_test.
        do 5 (eapply returns_bind; [reflexivity |]).
        eapply returns_bind; [apply sequence_run; exact Hoff |].
        eapply returns_bind; [reflexivity |]. cbn beta. cbn [app]. rewrite Hmode.
        eapply returns_bind; [reflexivity |].
        eapply returns_bind; reflexivity.
      + split; reflexivity. }
  destruct Hrun as (tail_effects & Hrun & Hgw' & Hadc).
  unfold returns in Hrun. rewrite Hrun. cbn [result final effects].
  split; [reflexivity |]. split; [reflexivity |].
  rewrite !gpio_writes_app, !adc_reads_app, Hgw', Hadc.
  assert (Hseq : adc_reads sequence_effects = []) by (vm_compute; reflexivity).
  assert (Hpulses : gpio_writes sequence_effects
                    = [(1, true); (1, false); (2, true); (2, false); (3, true); (3, false);
                       (0, true); (0, false); (5, true); (5, false); (4, true); (4, false)]%nat)
    by (vm_compute; reflexivity).
  rewrite Hseq, Hpulses. cbn [gpio_writes adc_reads flat_map]. rewrite !app_nil_r, !app_nil_l.
  split; reflexivity.
Qed.

(** The full test on the booted tester (VehicleTester mode) and on one
    in TrailerTester mode. *)
Lemma full_test_composition_witness :
  adc_reads (effects (_trigger_full_test (boot adc_12v None)))
  = [(0, 0); (0, 1); (0, 2); (0, 3); (1, 0); (1, 1)]
  /\ adc_reads (effects (_trigger_full_test (machine_in TestMode.TRAILER_TESTER))) = []
  /\ final (_trigger_full_test (machine_in TestMode.TRAILER_TESTER))
     = machine_in TestMode.TRAILER_TESTER.
Proof.
  destruct (full_test_composition (boot adc_12v None) eq_refl eq_refl)
    as (_ & _ & _ & Hvehicle).
  destruct (full_test_composition (machine_in TestMode.TRAILER_TESTER) eq_refl eq_refl)
    as (_ & Hsame & _ & Htrailer).
  split; [exact Hvehicle |]. split; [exact Htrailer | exact Hsame].
Defined.

(** ** The mode handlers of test_modes.py *)

Lemma SFltb_upper (m0 m1 : positive) (e0 e1 : Z) (x : spec_float) :
  e0 < e1 ->
  SFltb x (S754_finite false m0 e0) = true -> SFltb x (S754_finite false m1 e1) = true.
Proof.
  intros Hlt. unfold SFltb.
  destruct x as [sx | sx | | sx mx ex]; cbn [SFcompare]; try discriminate.
  - reflexivity.
  - destruct sx; first [reflexivity | discriminate].
  - destruct sx; [reflexivity |].
    destruct (ex ?= e0) eqn:He; try discriminate; intros _.
    + apply Z.compare_eq in He. subst ex.
      apply Z.compare_lt_iff in Hlt. rewrite Hlt. reflexivity.
    + rewrite Z.compare_lt_iff in He.
      assert (H : (ex ?= e1) = Lt) by (apply Z.compare_lt_iff; lia).
      rewrite H. reflexivity.
Qed.

Lemma below_half_below_low v :
  (v <? 0.5)%float = true -> (v <? TestModes.THRESHOLD_LOW)%float = true.
Proof.
  rewrite !FloatAxioms.ltb_spec.
  replace (Prim2SF 0.5) with (S754_finite false 4503599627370496 (-53)) by (vm_compute; reflexivity).
  replace (Prim2SF TestModes.THRESHOLD_LOW) with (S754_finite false 6755399441055744 (-51))
    by (vm_compute; reflexivity).
  apply SFltb_upper. lia.
Qed.

Lemma below_low_below_high v :
  (v <? TestModes.THRESHOLD_LOW)%float = true -> (v <? TestModes.THRESHOLD_HIGH)%float = true.
Proof.
  rewrite !FloatAxioms.ltb_spec.
  replace (Prim2SF TestModes.THRESHOLD_LOW) with (S754_finite false 6755399441055744 (-51))
    by (vm_compute; reflexivity).
  replace (Prim2SF TestModes.THRESHOLD_HIGH) with (S754_finite false 5629499534213120 (-49))
    by (vm_compute; reflexivity).
  apply SFltb_upper. lia.
Qed.

Lemma below_high_below_fault v :
  (v <? TestModes.THRESHOLD_HIGH)%float = true -> (v <? TestModes.THRESHOLD_FAULT)%float = true.
Proof.
  rewrite !FloatAxioms.ltb_spec.
  replace (Prim2SF TestModes.THRESHOLD_HIGH) with (S754_finite false 5629499534213120 (-49))
    by (vm_compute; reflexivity).
  replace (Prim2SF TestModes.THRESHOLD_FAULT) with (S754_finite false 4503599627370496 (-48))
    by (vm_compute; reflexivity).
  apply SFltb_upper. lia.
Qed.

(** The flags of [interpret_voltage] depend on one threshold each,
    whatever branch answers: a reading is active unless it is below
    THRESHOLD_LOW and a fault unless it is below THRESHOLD_FAULT (so a
    NaN is both); a fault is always active, and the status is "HIGH!"
    exactly for the faults. *)
Theorem interpret_voltage_flags (v : float) :
  snd (fst (TestModes.interpret_voltage v)) = negb (v <? TestModes.THRESHOLD_LOW)%float
  /\ snd (TestModes.interpret_voltage v) = negb (v <? TestModes.THRESHOLD_FAULT)%float
  /\ (snd (TestModes.interpret_voltage v) = true ->
      snd (fst (TestModes.interpret_voltage v)) = true)
  /\ (fst (fst (TestModes.interpret_voltage v)) = "HIGH!"
      <-> snd (TestModes.interpret_voltage v) = true).
Proof.
  unfold TestModes.interpret_voltage.
  destruct (v <? 0.5)%float eqn:H1.
  - pose proof (below_half_below_low v H1) as H2.
    pose proof (below_low_below_high v H2) as H3.
    pose proof (below_high_below_fault v H3) as H4.
    rewrite H2, H4. cbn. repeat split; try discriminate; reflexivity.
  - destruct (v <? TestModes.THRESHOLD_LOW)%float eqn:H2.
    + pose proof (below_low_below_high v H2) as H3.
      pose proof (below_high_below_fault v H3) as H4.
      rewrite H4. cbn. repeat split; try discriminate; reflexivity.
    + destruct (v <? TestModes.THRESHOLD_HIGH)%float eqn:H3.
      * pose proof (below_high_below_fault v H3) as H4.
        rewrite H4. cbn. repeat split; try discriminate; reflexivity.
      * destruct (v <? TestModes.THRESHOLD_FAULT)%float eqn:H4; cbn;
          repeat split; try discriminate; reflexivity.
Qed.

(** [get_test_sequence] answers for every name: each step of what it
    returns names a channel of the tester's CHANNELS or none, an
    unknown name gets the full test, and the full test is the sequence
    the controller runs, channel for channel and second for second. *)
Theorem get_test_sequence_total (sequence_name : string) :
  Forall known_channel (TestModes.get_test_sequence sequence_name)
  /\ (~ In sequence_name ["full"; "quick"; "turn"; "hazard"] ->
      TestModes.get_test_sequence sequence_name = TestModes.FULL_TEST)
  /\ TestModes.get_test_sequence "full"
     = map (fun step : string * string * float => (Some (fst (fst step)), snd step)) test_sequence.
Proof.
  assert (Hcheck : forall steps : list (option string * float),
             forallb (fun step => match fst step with
                                  | Some channel_name =>
                                      existsb (String.eqb channel_name) (map fst CHANNELS)
                                  | None => true
                                  end) steps = true ->
             Forall known_channel steps).
  { intros steps H. apply List.Forall_forall. intros [[channel_name |] duration] Hin;
      [| exact I].
    rewrite List.forallb_forall in H. specialize (H _ Hin). cbn [fst] in H.
    apply List.existsb_exists in H. destruct H as (c & Hc & Heq).
    apply String.eqb_eq in Heq. subst c. exact Hc. }
  assert (Hfull : Forall known_channel TestModes.FULL_TEST)
    by (apply Hcheck; vm_compute; reflexivity).
  assert (Hquick : Forall known_channel TestModes.QUICK_TEST)
    by (apply Hcheck; vm_compute; reflexivity).
  assert (Hturn : Forall known_channel TestModes.TURN_SIGNAL_TEST)
    by (apply Hcheck; vm_compute; reflexivity).
  assert (Hhazard : Forall known_channel TestModes.HAZARD_TEST)
    by (apply Hcheck; vm_compute; reflexivity).
  unfold TestModes.get_test_sequence. cbn [dict_get].
  repeat apply conj.
  - repeat (match goal with |- context [String.eqb ?a ?b] => destruct (String.eqb a b) end;
            [assumption |]).
    assumption.
  - intros Hnot.
    repeat (match goal with
            | |- context [String.eqb ?a sequence_name] =>
                destruct (String.eqb_spec a sequence_name) as [<- | _];
                [exfalso; apply Hnot; cbn; tauto |]
            end).
    reflexivity.
  - reflexivity.
Qed.

Lemma dict_set_absent {V : Type} (d : list (string * V)) k (v : V) :
  ~ In k (map fst d) -> dict_set d k v = d ++ [(k, v)].
Proof.
  induction d as [| [k' v'] rest IH]; cbn [dict_set map fst In List.app]; [reflexivity |].
  intros Hnot. destruct (String.eqb_spec k' k) as [-> | _].
  - exfalso. apply Hnot. now left.
  - rewrite IH; [reflexivity |]. intros Hin. apply Hnot. now right.
Qed.

(** [VehicleTester.analyze_readings] answers with one entry per channel
    of the readings, in their order: the channel's name and the
    interpretation of its voltage. *)
Theorem vehicle_analysis_per_channel (r : list (string * float)) :
  List.NoDup (map fst r) ->
  TestModes.analyze_readings r
  = map (fun item => (fst item, TestModes.interpret_voltage (snd item))) r.
Proof.
  unfold TestModes.analyze_readings.
  induction r as [| [k v] r IH] using rev_ind; intros Hkeys; [reflexivity |].
  rewrite map_app in Hkeys. cbn [map fst] in Hkeys.
  rewrite fold_left_app, map_app. cbn [fold_left map fst snd].
  rewrite IH by (apply List.NoDup_remove_1 in Hkeys; now rewrite app_nil_r in Hkeys).
  apply dict_set_absent. rewrite map_map. cbn [fst].
  apply List.NoDup_remove_2 in Hkeys. now rewrite app_nil_r in Hkeys.
Qed.

(** A vehicle with the running lights on and the brake line sagging. *)
Lemma vehicle_analysis_per_channel_witness :
  TestModes.analyze_readings [("tail", 12.0%float); ("brake", 7.0%float); ("left", 0.0%float)]
  = [("tail", ("OK", true, false)); ("brake", ("WEAK", true, false));
     ("left", ("OFF", false, false))].
Proof.
  rewrite (vehicle_analysis_per_channel
             [("tail", 12.0%float); ("brake", 7.0%float); ("left", 0.0%float)]).
  - reflexivity.
  - repeat constructor; cbn; intros H;
      repeat (destruct H as [H | H]; try discriminate H); exact H.
Defined.
